(** * AI Detector Pro: a shallow embedding of [main.py]

    The service has two scoring functions and two JSON handlers around
    them.  The embedding keeps the Python data as it is at run time:
    strings are sequences of Unicode code points, floats are IEEE-754
    binary64 numbers with round-to-nearest-even arithmetic, dictionaries
    are insertion-ordered association lists, and a handler either returns
    a value or raises an exception. *)

From Stdlib Require Import ZArith NArith List String Ascii Bool Lia.
From Stdlib Require Import SpecFloat.
Import ListNotations.

Set Warnings "-register-all".

(** ** Python floats: binary64 *)

Module PyFloat.

Definition prec : Z := 53.
Definition emax : Z := 1024.

Definition float := spec_float.

Definition add : float -> float -> float := SFadd prec emax.
Definition sub : float -> float -> float := SFsub prec emax.
Definition mul : float -> float -> float := SFmul prec emax.

Definition eqb : float -> float -> bool := SFeqb.
Definition ltb : float -> float -> bool := SFltb.
Definition leb : float -> float -> bool := SFleb.

(** [float(i)] for a Python integer: the nearest binary64 number.  The
    interpreter raises [OverflowError] from [2^1024 - 2^970] on; the
    integers converted here are list indices and the constants 1, 10, 25
    and 100, and a container holds fewer than [2^63] items, so that case
    is left to the rounding, which answers infinity. *)
Definition of_int (i : Z) : float := binary_normalize prec emax i 0 false.

(** The correctly rounded quotient of two positive integers.  It serves
    for [a / b] on Python integers, for decimal literals such as [0.7]
    (the binary64 number nearest to 7/10) and for the string-to-float
    step of [round]. *)
Definition quotient (s : bool) (a b : positive) : float :=
  SFdiv prec emax (S754_finite s a 0) (S754_finite false b 0).

(** [a / b] on non-negative Python integers with [b] positive. *)
Definition int_truediv (a b : Z) : float :=
  match a, b with
  | Z0, Zpos _ => S754_zero false
  | Zpos a', Zpos b' => quotient false a' b'
  | Zneg a', Zpos b' => quotient true a' b'
  | _, _ => S754_nan
  end.

(** The decimal literal [n/d], e.g. [literal 7 10] for [0.7]. *)
Definition literal (n d : positive) : float := quotient false n d.

(** Nearest integer to [n / d] for [d > 0], ties to the even one. *)
Definition round_half_even (n d : Z) : Z :=
  let q := (n / d)%Z in
  match (2 * (n mod d) ?= d)%Z with
  | Lt => q
  | Gt => (q + 1)%Z
  | Eq => if Z.even q then q else (q + 1)%Z
  end.

(** [round(x, ndigits)] on a float, for [ndigits >= 0]: the exact binary
    value is rounded to [ndigits] decimals, half to even, and the
    resulting decimal is read back as the nearest binary64 number. *)
Definition round (x : float) (ndigits : Z) : float :=
  match x with
  | S754_finite s m e =>
      let p := (10 ^ ndigits)%Z in
      let k := if (0 <=? e)%Z
               then (Zpos m * 2 ^ e * p)%Z
               else round_half_even (Zpos m * p) (2 ^ (- e)) in
      match k, p with
      | Zpos k', Zpos p' => quotient s k' p'
      | _, _ => S754_zero s
      end
  | _ => x
  end.

End PyFloat.

(** ** Python strings: sequences of code points *)

Definition codepoint := N.
Definition str := list codepoint.

Module PyStr.

Open Scope N_scope.

(** Code points of a UTF-8 encoded source literal. *)
Fixpoint utf8_decode (bs : list N) : str :=
  match bs with
  | [] => []
  | b :: r =>
      if b <? 0x80 then b :: utf8_decode r
      else if b <? 0xE0 then
        match r with
        | b1 :: r1 => ((b - 0xC0) * 64 + (b1 - 0x80)) :: utf8_decode r1
        | _ => []
        end
      else if b <? 0xF0 then
        match r with
        | b1 :: b2 :: r2 =>
            ((b - 0xE0) * 4096 + (b1 - 0x80) * 64 + (b2 - 0x80))
              :: utf8_decode r2
        | _ => []
        end
      else
        match r with
        | b1 :: b2 :: b3 :: r3 =>
            ((b - 0xF0) * 262144 + (b1 - 0x80) * 4096
             + (b2 - 0x80) * 64 + (b3 - 0x80)) :: utf8_decode r3
        | _ => []
        end
  end.

Definition lit (s : string) : str :=
  utf8_decode (map N_of_ascii (list_ascii_of_string s)).

Fixpoint eqb (a b : str) : bool :=
  match a, b with
  | [], [] => true
  | x :: a', y :: b' => (x =? y) && eqb a' b'
  | _, _ => false
  end.

(** [a <= b] on strings: lexicographic on code points. *)
Fixpoint leb (a b : str) : bool :=
  match a, b with
  | [], _ => true
  | _ :: _, [] => false
  | x :: a', y :: b' => (x <? y) || ((x =? y) && leb a' b')
  end.

(** [str.isspace] on one code point: the whitespace that [strip()] and
    [split()] without arguments remove. *)
Definition isspace (c : codepoint) : bool :=
  ((0x09 <=? c) && (c <=? 0x0D)) || ((0x1C <=? c) && (c <=? 0x20))
  || (c =? 0x85) || (c =? 0xA0) || (c =? 0x1680)
  || ((0x2000 <=? c) && (c <=? 0x200A))
  || (c =? 0x2028) || (c =? 0x2029) || (c =? 0x202F)
  || (c =? 0x205F) || (c =? 0x3000).

Fixpoint lstrip (s : str) : str :=
  match s with
  | c :: s' => if isspace c then lstrip s' else s
  | [] => []
  end.

Definition rstrip (s : str) : str := rev (lstrip (rev s)).

Definition strip (s : str) : str := rstrip (lstrip s).

(** [s.split()]: maximal runs of non-whitespace. [cur] holds the run
    being read, most recent code point first. *)
Fixpoint split_ws_from (cur : str) (s : str) : list str :=
  match s with
  | [] => match cur with [] => [] | _ => [rev cur] end
  | c :: s' =>
      if isspace c
      then match cur with
           | [] => split_ws_from [] s'
           | _ => rev cur :: split_ws_from [] s'
           end
      else split_ws_from (c :: cur) s'
  end.

Definition split (s : str) : list str := split_ws_from [] s.

(** [s.split(sep)] for a separator of one code point: every occurrence
    cuts, empty pieces are kept. *)
Fixpoint split_on_from (sep : codepoint) (cur : str) (s : str) : list str :=
  match s with
  | [] => [rev cur]
  | c :: s' =>
      if c =? sep then rev cur :: split_on_from sep [] s'
      else split_on_from sep (c :: cur) s'
  end.

Definition split_on (sep : codepoint) (s : str) : list str :=
  split_on_from sep [] s.

(** [s.replace(old, new)] for [old] and [new] of one code point each. *)
Definition replace (old new : codepoint) (s : str) : str :=
  map (fun c => if c =? old then new else c) s.

End PyStr.

Notation "'u' s" := (PyStr.lit s%string) (at level 1, s at level 0, only parsing).

(** ** Lowercase mapping of the interpreter *)

Module Unicode.

Open Scope N_scope.

(** A run [(lo, hi, step, img)] maps the code points [lo], [lo + step],
    ..., [hi] to [img], [img + step], ... *)
Definition run : Type := N * N * N * N.

Definition in_run (c : codepoint) (r : run) : bool :=
  let '(lo, hi, step, _) := r in
  (lo <=? c) && (c <=? hi) && ((c - lo) mod step =? 0).

Definition image (c : codepoint) (r : run) : codepoint :=
  let '(lo, _, _, img) := r in img + (c - lo).

(** The code points that [str.lower] changes into one other code point
    (Unicode 14.0, the data of CPython 3.11), as runs in increasing
    order. *)
Definition lower_runs : list run :=
  [
    (0x41, 0x5A, 1, 0x61); (0xC0, 0xD6, 1, 0xE0); (0xD8, 0xDE, 1, 0xF8);
    (0x100, 0x12E, 2, 0x101); (0x132, 0x136, 2, 0x133);
    (0x139, 0x147, 2, 0x13A); (0x14A, 0x176, 2, 0x14B);
    (0x178, 0x178, 1, 0xFF); (0x179, 0x17D, 2, 0x17A);
    (0x181, 0x181, 1, 0x253); (0x182, 0x184, 2, 0x183);
    (0x186, 0x186, 1, 0x254); (0x187, 0x187, 1, 0x188);
    (0x189, 0x18A, 1, 0x256); (0x18B, 0x18B, 1, 0x18C);
    (0x18E, 0x18E, 1, 0x1DD); (0x18F, 0x18F, 1, 0x259);
    (0x190, 0x190, 1, 0x25B); (0x191, 0x191, 1, 0x192);
    (0x193, 0x193, 1, 0x260); (0x194, 0x194, 1, 0x263);
    (0x196, 0x196, 1, 0x269); (0x197, 0x197, 1, 0x268);
    (0x198, 0x198, 1, 0x199); (0x19C, 0x19C, 1, 0x26F);
    (0x19D, 0x19D, 1, 0x272); (0x19F, 0x19F, 1, 0x275);
    (0x1A0, 0x1A4, 2, 0x1A1); (0x1A6, 0x1A6, 1, 0x280);
    (0x1A7, 0x1A7, 1, 0x1A8); (0x1A9, 0x1A9, 1, 0x283);
    (0x1AC, 0x1AC, 1, 0x1AD); (0x1AE, 0x1AE, 1, 0x288);
    (0x1AF, 0x1AF, 1, 0x1B0); (0x1B1, 0x1B2, 1, 0x28A);
    (0x1B3, 0x1B5, 2, 0x1B4); (0x1B7, 0x1B7, 1, 0x292);
    (0x1B8, 0x1B8, 1, 0x1B9); (0x1BC, 0x1BC, 1, 0x1BD);
    (0x1C4, 0x1C4, 1, 0x1C6); (0x1C5, 0x1C5, 1, 0x1C6);
    (0x1C7, 0x1C7, 1, 0x1C9); (0x1C8, 0x1C8, 1, 0x1C9);
    (0x1CA, 0x1CA, 1, 0x1CC); (0x1CB, 0x1DB, 2, 0x1CC);
    (0x1DE, 0x1EE, 2, 0x1DF); (0x1F1, 0x1F1, 1, 0x1F3);
    (0x1F2, 0x1F4, 2, 0x1F3); (0x1F6, 0x1F6, 1, 0x195);
    (0x1F7, 0x1F7, 1, 0x1BF); (0x1F8, 0x21E, 2, 0x1F9);
    (0x220, 0x220, 1, 0x19E); (0x222, 0x232, 2, 0x223);
    (0x23A, 0x23A, 1, 0x2C65); (0x23B, 0x23B, 1, 0x23C);
    (0x23D, 0x23D, 1, 0x19A); (0x23E, 0x23E, 1, 0x2C66);
    (0x241, 0x241, 1, 0x242); (0x243, 0x243, 1, 0x180);
    (0x244, 0x244, 1, 0x289); (0x245, 0x245, 1, 0x28C);
    (0x246, 0x24E, 2, 0x247); (0x370, 0x372, 2, 0x371);
    (0x376, 0x376, 1, 0x377); (0x37F, 0x37F, 1, 0x3F3);
    (0x386, 0x386, 1, 0x3AC); (0x388, 0x38A, 1, 0x3AD);
    (0x38C, 0x38C, 1, 0x3CC); (0x38E, 0x38F, 1, 0x3CD);
    (0x391, 0x3A1, 1, 0x3B1); (0x3A3, 0x3AB, 1, 0x3C3);
    (0x3CF, 0x3CF, 1, 0x3D7); (0x3D8, 0x3EE, 2, 0x3D9);
    (0x3F4, 0x3F4, 1, 0x3B8); (0x3F7, 0x3F7, 1, 0x3F8);
    (0x3F9, 0x3F9, 1, 0x3F2); (0x3FA, 0x3FA, 1, 0x3FB);
    (0x3FD, 0x3FF, 1, 0x37B); (0x400, 0x40F, 1, 0x450);
    (0x410, 0x42F, 1, 0x430); (0x460, 0x480, 2, 0x461);
    (0x48A, 0x4BE, 2, 0x48B); (0x4C0, 0x4C0, 1, 0x4CF);
    (0x4C1, 0x4CD, 2, 0x4C2); (0x4D0, 0x52E, 2, 0x4D1);
    (0x531, 0x556, 1, 0x561); (0x10A0, 0x10C5, 1, 0x2D00);
    (0x10C7, 0x10C7, 1, 0x2D27); (0x10CD, 0x10CD, 1, 0x2D2D);
    (0x13A0, 0x13EF, 1, 0xAB70); (0x13F0, 0x13F5, 1, 0x13F8);
    (0x1C90, 0x1CBA, 1, 0x10D0); (0x1CBD, 0x1CBF, 1, 0x10FD);
    (0x1E00, 0x1E94, 2, 0x1E01); (0x1E9E, 0x1E9E, 1, 0xDF);
    (0x1EA0, 0x1EFE, 2, 0x1EA1); (0x1F08, 0x1F0F, 1, 0x1F00);
    (0x1F18, 0x1F1D, 1, 0x1F10); (0x1F28, 0x1F2F, 1, 0x1F20);
    (0x1F38, 0x1F3F, 1, 0x1F30); (0x1F48, 0x1F4D, 1, 0x1F40);
    (0x1F59, 0x1F5F, 2, 0x1F51); (0x1F68, 0x1F6F, 1, 0x1F60);
    (0x1F88, 0x1F8F, 1, 0x1F80); (0x1F98, 0x1F9F, 1, 0x1F90);
    (0x1FA8, 0x1FAF, 1, 0x1FA0); (0x1FB8, 0x1FB9, 1, 0x1FB0);
    (0x1FBA, 0x1FBB, 1, 0x1F70); (0x1FBC, 0x1FBC, 1, 0x1FB3);
    (0x1FC8, 0x1FCB, 1, 0x1F72); (0x1FCC, 0x1FCC, 1, 0x1FC3);
    (0x1FD8, 0x1FD9, 1, 0x1FD0); (0x1FDA, 0x1FDB, 1, 0x1F76);
    (0x1FE8, 0x1FE9, 1, 0x1FE0); (0x1FEA, 0x1FEB, 1, 0x1F7A);
    (0x1FEC, 0x1FEC, 1, 0x1FE5); (0x1FF8, 0x1FF9, 1, 0x1F78);
    (0x1FFA, 0x1FFB, 1, 0x1F7C); (0x1FFC, 0x1FFC, 1, 0x1FF3);
    (0x2126, 0x2126, 1, 0x3C9); (0x212A, 0x212A, 1, 0x6B);
    (0x212B, 0x212B, 1, 0xE5); (0x2132, 0x2132, 1, 0x214E);
    (0x2160, 0x216F, 1, 0x2170); (0x2183, 0x2183, 1, 0x2184);
    (0x24B6, 0x24CF, 1, 0x24D0); (0x2C00, 0x2C2F, 1, 0x2C30);
    (0x2C60, 0x2C60, 1, 0x2C61); (0x2C62, 0x2C62, 1, 0x26B);
    (0x2C63, 0x2C63, 1, 0x1D7D); (0x2C64, 0x2C64, 1, 0x27D);
    (0x2C67, 0x2C6B, 2, 0x2C68); (0x2C6D, 0x2C6D, 1, 0x251);
    (0x2C6E, 0x2C6E, 1, 0x271); (0x2C6F, 0x2C6F, 1, 0x250);
    (0x2C70, 0x2C70, 1, 0x252); (0x2C72, 0x2C72, 1, 0x2C73);
    (0x2C75, 0x2C75, 1, 0x2C76); (0x2C7E, 0x2C7F, 1, 0x23F);
    (0x2C80, 0x2CE2, 2, 0x2C81); (0x2CEB, 0x2CED, 2, 0x2CEC);
    (0x2CF2, 0x2CF2, 1, 0x2CF3); (0xA640, 0xA66C, 2, 0xA641);
    (0xA680, 0xA69A, 2, 0xA681); (0xA722, 0xA72E, 2, 0xA723);
    (0xA732, 0xA76E, 2, 0xA733); (0xA779, 0xA77B, 2, 0xA77A);
    (0xA77D, 0xA77D, 1, 0x1D79); (0xA77E, 0xA786, 2, 0xA77F);
    (0xA78B, 0xA78B, 1, 0xA78C); (0xA78D, 0xA78D, 1, 0x265);
    (0xA790, 0xA792, 2, 0xA791); (0xA796, 0xA7A8, 2, 0xA797);
    (0xA7AA, 0xA7AA, 1, 0x266); (0xA7AB, 0xA7AB, 1, 0x25C);
    (0xA7AC, 0xA7AC, 1, 0x261); (0xA7AD, 0xA7AD, 1, 0x26C);
    (0xA7AE, 0xA7AE, 1, 0x26A); (0xA7B0, 0xA7B0, 1, 0x29E);
    (0xA7B1, 0xA7B1, 1, 0x287); (0xA7B2, 0xA7B2, 1, 0x29D);
    (0xA7B3, 0xA7B3, 1, 0xAB53); (0xA7B4, 0xA7C2, 2, 0xA7B5);
    (0xA7C4, 0xA7C4, 1, 0xA794); (0xA7C5, 0xA7C5, 1, 0x282);
    (0xA7C6, 0xA7C6, 1, 0x1D8E); (0xA7C7, 0xA7C9, 2, 0xA7C8);
    (0xA7D0, 0xA7D0, 1, 0xA7D1); (0xA7D6, 0xA7D8, 2, 0xA7D7);
    (0xA7F5, 0xA7F5, 1, 0xA7F6); (0xFF21, 0xFF3A, 1, 0xFF41);
    (0x10400, 0x10427, 1, 0x10428); (0x104B0, 0x104D3, 1, 0x104D8);
    (0x10570, 0x1057A, 1, 0x10597); (0x1057C, 0x1058A, 1, 0x105A3);
    (0x1058C, 0x10592, 1, 0x105B3); (0x10594, 0x10595, 1, 0x105BB);
    (0x10C80, 0x10CB2, 1, 0x10CC0); (0x118A0, 0x118BF, 1, 0x118C0);
    (0x16E40, 0x16E5F, 1, 0x16E60); (0x1E900, 0x1E921, 1, 0x1E922)
  ].

(** [chr(c).lower()].  U+0130 is the only code point whose lowercase
    form has two code points. *)
Definition lower_char (c : codepoint) : str :=
  if c =? 0x130 then [0x69; 0x307]
  else match find (in_run c) lower_runs with
       | Some r => [image c r]
       | None => [c]
       end.

End Unicode.

(** ** Python values, dictionaries and exceptions *)

Inductive value : Type :=
| VNone
| VBool (b : bool)
| VInt (i : Z)
| VFloat (f : PyFloat.float)
| VStr (s : str)
| VList (l : list value)
| VDict (d : list (str * value)).

(** A dictionary keeps its keys in insertion order. *)
Definition dict : Type := list (str * value).

Module Dict.

Fixpoint get (d : dict) (k : str) : option value :=
  match d with
  | [] => None
  | (k', v) :: d' => if PyStr.eqb k k' then Some v else get d' k
  end.

(** [d.get(k, default)] *)
Definition get_default (d : dict) (k : str) (default : value) : value :=
  match get d k with
  | Some v => v
  | None => default
  end.

(** [d[k] = v] *)
Fixpoint set (d : dict) (k : str) (v : value) : dict :=
  match d with
  | [] => [(k, v)]
  | (k', v') :: d' =>
      if PyStr.eqb k k' then (k', v) :: d' else (k', v') :: set d' k v
  end.

End Dict.

Definition len {A : Type} (l : list A) : Z := Z.of_nat (List.length l).

(** [sum(...)] over integers *)
Definition sum (l : list Z) : Z := fold_left Z.add l 0%Z.

(** [range(n)] *)
Definition range (n : Z) : list Z := map Z.of_nat (seq 0 (Z.to_nat n)).

Definition nonempty {A : Type} (l : list A) : bool :=
  match l with
  | [] => false
  | _ :: _ => true
  end.

(** Truth value of an object, as [not] and [if] test it. *)
Definition truthy (v : value) : bool :=
  match v with
  | VNone => false
  | VBool b => b
  | VInt i => negb (i =? 0)%Z
  | VFloat f => negb (PyFloat.eqb f (S754_zero false))
  | VStr s => nonempty s
  | VList l => nonempty l
  | VDict d => nonempty d
  end.

(** [v > n] and [v < n] for a number [v] and an integer constant [n];
    Python compares a float with an integer by value. *)
Definition num_gt (v : value) (n : Z) : bool :=
  match v with
  | VInt i => (i >? n)%Z
  | VFloat f => PyFloat.ltb (PyFloat.of_int n) f
  | _ => false
  end.

Definition num_lt (v : value) (n : Z) : bool :=
  match v with
  | VInt i => (i <? n)%Z
  | VFloat f => PyFloat.ltb f (PyFloat.of_int n)
  | _ => false
  end.

(** [round(v, ndigits)]: an integer is returned unchanged for
    [ndigits >= 0]. *)
Definition round (v : value) (ndigits : Z) : value :=
  match v with
  | VFloat f => VFloat (PyFloat.round f ndigits)
  | _ => v
  end.

(** The exceptions the handlers meet.  The detail of an [HTTPException]
    is either a string of the program or [str(e)] for a caught exception
    [e]; what [str] prints is left to the exception classes of the
    framework and the interpreter. *)
Inductive exn : Type :=
| HTTPException (status_code : Z) (detail : message)
| AttributeError (obj : value) (name : str)
| TypeError (obj : value)
with message : Type :=
| Text (s : str)
| Str (e : exn).

Inductive outcome (A : Type) : Type :=
| Return (a : A)
| Raise (e : exn).

Arguments Return {A} a.
Arguments Raise {A} e.

Definition bind {A B : Type} (m : outcome A) (k : A -> outcome B) : outcome B :=
  match m with
  | Return a => k a
  | Raise e => Raise e
  end.

Notation "x <- m ;; k" := (bind m (fun x => k))
  (at level 61, m at next level, right associativity).

(** [try: body  except Exception as e: handler(e)] *)
Definition try_except {A : Type} (body : outcome A) (handler : exn -> outcome A)
  : outcome A :=
  match body with
  | Return a => Return a
  | Raise e => handler e
  end.

(** ** The float and string constants of [main.py] *)

Definition f0_1 : PyFloat.float := PyFloat.literal 1 10.
Definition f0_2 : PyFloat.float := PyFloat.literal 2 10.
Definition f0_3 : PyFloat.float := PyFloat.literal 3 10.
Definition f0_4 : PyFloat.float := PyFloat.literal 4 10.
Definition f0_5 : PyFloat.float := PyFloat.literal 5 10.
Definition f0_7 : PyFloat.float := PyFloat.literal 7 10.

(** The language tags: "unknown", Arabic, English, mixed. *)
Definition lang_unknown : str := u"unknown".
Definition lang_arabic : str := u"العربية".
Definition lang_english : str := u"الإنجليزية".
Definition lang_mixed : str := u"مختلطة".

(** The notes: text too short for an accurate analysis; high likelihood
    of AI-generated text; clearly human text; inconclusive result. *)
Definition note_too_short : str := u"النص قصير جدًا لتحليل دقيق".
Definition note_high : str := u"نص ذو احتمالية عالية للذكاء الاصطناعي".
Definition note_human : str := u"نص بشري واضح".
Definition note_inconclusive : str := u"النتيجة غير حاسمة".

(** The detail of the validation error: the text is required. *)
Definition detail_text_required : str := u"النص مطلوب".

(** ** Helper functions of [main.py] *)

Definition is_arabic_char (char : codepoint) : bool :=
  PyStr.leb [0x600%N] [char] && PyStr.leb [char] [0x6FF%N].

Definition is_english_char (char : codepoint) : bool :=
  PyStr.leb u"a" (Unicode.lower_char char)
  && PyStr.leb (Unicode.lower_char char) u"z".

Definition detect_language_advanced (text : str) : str :=
  if negb (nonempty text) || (len (PyStr.strip text) <? 10)%Z
  then lang_unknown
  else
    let arabic_chars := sum (map (fun _ => 1%Z) (filter is_arabic_char text)) in
    let english_chars := sum (map (fun _ => 1%Z) (filter is_english_char text)) in
    if (arabic_chars >? english_chars * 2)%Z then lang_arabic
    else if (english_chars >? arabic_chars * 2)%Z then lang_english
    else lang_mixed.

(** The sentences of a text: the pieces between terminators, stripped,
    the empty ones dropped. *)
Definition sentences_of (text : str) : list str :=
  let pieces :=
    PyStr.split_on 0x2E%N
      (PyStr.replace 0x61F%N 0x2E%N
         (PyStr.replace 0x3F%N 0x2E%N
            (PyStr.replace 0x21%N 0x2E%N text))) in
  map PyStr.strip (filter (fun s => nonempty (PyStr.strip s)) pieces).

Definition avg_sentence_len_of (sentences : list str) : value :=
  if nonempty sentences
  then VFloat (PyFloat.int_truediv
                 (sum (map (fun s => len (PyStr.split s)) sentences))
                 (len sentences))
  else VInt 0.

Definition ai_probability_of (avg_sentence_len : value) : PyFloat.float :=
  if num_gt avg_sentence_len 25 then f0_7
  else if num_lt avg_sentence_len 10 then f0_3
  else f0_5.

Definition note_of (ai_probability : PyFloat.float) : str :=
  if PyFloat.ltb f0_7 ai_probability then note_high
  else if PyFloat.ltb ai_probability f0_3 then note_human
  else note_inconclusive.

Definition advanced_ai_detection (text : str) : dict :=
  if negb (nonempty text) || (len (PyStr.strip text) <? 20)%Z
  then
    [ (u"ai_probability", VFloat f0_5);
      (u"note", VStr note_too_short);
      (u"confidence", VInt 50);
      (u"language", VStr (detect_language_advanced text)) ]
  else
    let words := PyStr.split text in
    let sentences := sentences_of text in
    let avg_sentence_len := avg_sentence_len_of sentences in
    let ai_probability := ai_probability_of avg_sentence_len in
    let note := note_of ai_probability in
    [ (u"ai_probability", VFloat (PyFloat.round ai_probability 3));
      (u"human_probability",
        VFloat (PyFloat.round (PyFloat.sub (PyFloat.of_int 1) ai_probability) 3));
      (u"note", VStr note);
      (u"confidence", VInt 80);
      (u"language", VStr (detect_language_advanced text));
      (u"analysis",
        VDict [ (u"word_count", VInt (len words));
                (u"avg_sentence_length", round avg_sentence_len 1) ]) ].

(** ** The JSON handlers of [main.py] *)

(** [len(v)] *)
Definition py_len (v : value) : outcome Z :=
  match v with
  | VStr s => Return (len s)
  | VList l => Return (len l)
  | VDict d => Return (len d)
  | _ => Raise (TypeError v)
  end.

(** [advanced_ai_detection(v)] on whatever the payload holds under
    ["text"]: only a string has a [strip] method. *)
Definition call_advanced_ai_detection (v : value) : outcome dict :=
  match v with
  | VStr text => Return (advanced_ai_detection text)
  | _ => Raise (AttributeError v u"strip")
  end.

(** One turn of the loop of [check_plagiarism]: the entry appended for
    the reference at index [i]. *)
Definition similarity_entry (i : Z) : value :=
  let score := PyFloat.add f0_1 (PyFloat.mul (PyFloat.of_int i) f0_1) in
  let status :=
    if PyFloat.ltb f0_7 score then u"high"
    else if PyFloat.ltb f0_4 score then u"medium"
    else u"low" in
  VDict [ (u"ref_index", VInt i);
          (u"score", VFloat (PyFloat.round score 2));
          (u"percentage",
            VFloat (PyFloat.round (PyFloat.mul score (PyFloat.of_int 100)) 2));
          (u"status", VStr status) ].

Definition detect_ai (payload : dict) : outcome dict :=
  try_except
    (let text := Dict.get_default payload u"text" (VStr u"") in
     if negb (truthy text)
     then Raise (HTTPException 400 (Text detail_text_required))
     else
       result <- call_advanced_ai_detection text ;;
       Return (Dict.set result u"method" (VStr u"advanced_algorithm")))
    (fun e => Raise (HTTPException 500 (Str e))).

Definition check_plagiarism (payload : dict) : outcome dict :=
  try_except
    (let doc := Dict.get_default payload u"doc" (VStr u"") in
     let references := Dict.get_default payload u"references" (VList []) in
     n <- py_len references ;;
     let results :=
       fold_left (fun results i => results ++ [similarity_entry i])
                 (range n) [] in
     Return [ (u"scores", VList results);
              (u"summary",
                VDict [ (u"total_references", VInt n);
                        (u"highest_similarity", VFloat f0_3);
                        (u"average_similarity", VFloat f0_2) ]) ])
    (fun e => Raise (HTTPException 500 (Str e))).

(** The status line of the response: 200 for a returned body, the status
    code of a raised [HTTPException], 500 for any other exception. *)
Definition status_code_of {A : Type} (r : outcome A) : Z :=
  match r with
  | Return _ => 200
  | Raise (HTTPException status_code _) => status_code
  | Raise _ => 500
  end.

(** ** The language classifier as the specification words it *)

Definition in_arabic_block (c : codepoint) : bool :=
  ((0x600 <=? c) && (c <=? 0x6FF))%N.

Definition is_ascii_letter (c : codepoint) : bool :=
  (((0x41 <=? c) && (c <=? 0x5A)) || ((0x61 <=? c) && (c <=? 0x7A)))%N.

(** The ASCII letters together with U+0130 (capital I with dot above) and
    U+212A (the Kelvin sign), which lowercase to "i" + U+0307 and to "k". *)
Definition lowers_into_a_z (c : codepoint) : bool :=
  (is_ascii_letter c || (c =? 0x130) || (c =? 0x212A))%N.

Definition count_chars (p : codepoint -> bool) (text : str) : Z :=
  len (filter p text).

(** Unknown under 10 trimmed characters, else Arabic, English or Mixed by
    the two counts; [english] says which characters count as English. *)
Definition classify_language (english : codepoint -> bool) (text : str) : str :=
  if (len (PyStr.strip text) <? 10)%Z then lang_unknown
  else
    let arabicCount := count_chars in_arabic_block text in
    let englishCount := count_chars english text in
    if (arabicCount >? englishCount * 2)%Z then lang_arabic
    else if (englishCount >? arabicCount * 2)%Z then lang_english
    else lang_mixed.

(** A run of the lowercase table is harmless for the English count when
    it is the run of "A".."Z", the run of the Kelvin sign, or a run whose
    images lie above "z" and whose code points are neither ASCII letters
    nor the Kelvin sign. *)
Definition run_ok (r : Unicode.run) : bool :=
  let '(lo, hi, _, img) := r in
  (if lo =? 0x41 then (hi =? 0x5A) && (img =? 0x61)
   else if lo =? 0x212A then (hi =? 0x212A) && (img =? 0x6B)
   else (0x7A <? img) && ((hi <? 0x41) || (0x7A <? lo))
        && ((hi <? 0x212A) || (0x212A <? lo)))%N.

(** ** Reading a response *)

Definition float_field (entry : value) (k : str) : option PyFloat.float :=
  match entry with
  | VDict d => match Dict.get d k with
               | Some (VFloat f) => Some f
               | _ => None
               end
  | _ => None
  end.

(** [lo <= f <= hi] for integer bounds. *)
Definition between (lo hi : Z) (f : PyFloat.float) : bool :=
  PyFloat.leb (PyFloat.of_int lo) f && PyFloat.leb f (PyFloat.of_int hi).

(** The score lies in [0,1] and the percentage in [0,100]. *)
Definition entry_in_range (entry : value) : bool :=
  match float_field entry u"score", float_field entry u"percentage" with
  | Some score, Some percentage => between 0 1 score && between 0 100 percentage
  | _, _ => false
  end.

(** The [scores] list of a response body. *)
Definition scores_of (r : outcome dict) : list value :=
  match r with
  | Return body => match Dict.get body u"scores" with
                   | Some (VList results) => results
                   | _ => []
                   end
  | Raise _ => []
  end.

(** The entry at index [i] shows the decimals [(i+1)/10] and [10*(i+1)]:
    its score equals the float written [(i+1)/10] and its percentage the
    integer [10*(i+1)], a hundred times that decimal. *)
Definition entry_is_decimal (i : nat) (entry : value) : bool :=
  match float_field entry u"score", float_field entry u"percentage" with
  | Some score, Some percentage =>
      PyFloat.eqb score (PyFloat.literal (Pos.of_succ_nat i) 10)
      && PyFloat.eqb percentage (PyFloat.of_int (10 * Z.of_nat (S i)))
  | _, _ => false
  end.

(** ** Predicates for stating properties *)

(** The four sentence terminators: full stop, exclamation mark, question
    mark and Arabic question mark. *)
Definition is_terminator (c : codepoint) : bool :=
  ((c =? 0x2E) || (c =? 0x21) || (c =? 0x3F) || (c =? 0x61F))%N.

Definition all_space (s : str) : Prop :=
  Forall (fun c => PyStr.isspace c = true) s.

(** Two characters of the same class: both whitespace or neither, both in
    the Arabic block or neither, both counted as English or neither. *)
Definition same_class (a b : codepoint) : Prop :=
  PyStr.isspace a = PyStr.isspace b
  /\ in_arabic_block a = in_arabic_block b
  /\ lowers_into_a_z a = lowers_into_a_z b.

(** The values [len] accepts. *)
Definition sized (v : value) : bool :=
  match v with
  | VStr _ | VList _ | VDict _ => true
  | _ => false
  end.

Definition str_field (entry : value) (k : str) : option str :=
  match entry with
  | VDict d => match Dict.get d k with
               | Some (VStr s) => Some s
               | _ => None
               end
  | _ => None
  end.

(** The status seen at the first positions: "low" up to 3, "medium" at 4
    and 5, "high" from 6 on. *)
Definition status_at (i : nat) : str :=
  if (i <=? 3)%nat then u"low"
  else if (i <=? 5)%nat then u"medium"
  else u"high".

(** The score lies above 1 and the percentage above 100. *)
Definition entry_above_range (entry : value) : bool :=
  match float_field entry u"score", float_field entry u"percentage" with
  | Some score, Some percentage =>
      PyFloat.ltb (PyFloat.of_int 1) score
      && PyFloat.ltb (PyFloat.of_int 100) percentage
  | _, _ => false
  end.

(** ** Sample inputs *)

(** Thirty one-letter words and no terminator: one sentence of 30 words. *)
Definition thirty_words : str :=
  u"w w w w w w w w w w w w w w w w w w w w w w w w w w w w w w".

(** Ten Kelvin signs. *)
Definition ten_kelvin : str := repeat 0x212A%N 10.

Definition references_of (n : nat) : value := VList (repeat (VStr u"a") n).

Definition payload_of (doc : str) (references : value) : dict :=
  [ (u"doc", VStr doc); (u"references", references) ].

(** * Properties *)

(** ** The model on known values *)

Example literal_0_7 : f0_7 = S754_finite false 6305039478318694 (-53).
Proof. reflexivity. Qed.

Example add_0_7_0_3 : PyFloat.add f0_7 f0_3 = PyFloat.of_int 1.
Proof. reflexivity. Qed.

Example sub_1_0_7 :
  PyFloat.sub (PyFloat.of_int 1) f0_7 <> f0_3
  /\ PyFloat.round (PyFloat.sub (PyFloat.of_int 1) f0_7) 3 = f0_3.
Proof. split; [vm_compute; discriminate | reflexivity]. Qed.

Example round_half_even_ties :
  PyFloat.round (PyFloat.literal 5 10) 0 = S754_zero false
  /\ PyFloat.round (PyFloat.literal 15 10) 0 = PyFloat.of_int 2
  /\ PyFloat.round (PyFloat.literal 2675 1000) 2 = PyFloat.literal 267 100.
Proof. repeat split; reflexivity. Qed.

Example lit_ascii : u"Hi" = [72; 105]%N.
Proof. reflexivity. Qed.

Example lit_arabic_question_mark : u"؟" = [0x61F]%N.
Proof. reflexivity. Qed.

Example lower_kelvin : Unicode.lower_char 0x212A%N = u"k".
Proof. reflexivity. Qed.

Example lower_cyrillic : Unicode.lower_char 0x416%N = [0x436]%N.
Proof. reflexivity. Qed.

Example split_words : PyStr.split u"  one two   three " = [u"one"; u"two"; u"three"].
Proof. reflexivity. Qed.

Example split_on_dot : PyStr.split_on 0x2E%N u"a..b." = [u"a"; u""; u"b"; u""].
Proof. reflexivity. Qed.

Example sentences_of_sample :
  sentences_of u"Is it so? Yes! It is. " = [u"Is it so"; u"Yes"; u"It is"].
Proof. reflexivity. Qed.

Example language_english :
  detect_language_advanced u"hello wide world" = lang_english.
Proof. reflexivity. Qed.

Example language_arabic :
  detect_language_advanced u"مرحبا بالعالم كله" = lang_arabic.
Proof. reflexivity. Qed.

Example detect_ai_number :
  detect_ai [ (u"text", VInt 5) ]
  = Raise (HTTPException 500 (Str (AttributeError (VInt 5) u"strip"))).
Proof. reflexivity. Qed.

Example check_plagiarism_null_references :
  check_plagiarism [ (u"references", VNone) ]
  = Raise (HTTPException 500 (Str (TypeError VNone))).
Proof. reflexivity. Qed.

(** ** Dictionaries and lists *)

Lemma get_cons_eq (d : dict) (k k' : str) (v : value) :
  PyStr.eqb k' k = true -> Dict.get ((k, v) :: d) k' = Some v.
Proof. intros H. simpl. now rewrite H. Qed.

Lemma get_cons_ne (d : dict) (k k' : str) (v : value) :
  PyStr.eqb k' k = false -> Dict.get ((k, v) :: d) k' = Dict.get d k'.
Proof. intros H. simpl. now rewrite H. Qed.

Ltac dict_get :=
  repeat first [ rewrite get_cons_eq by reflexivity
               | rewrite get_cons_ne by reflexivity ];
  try reflexivity.

Lemma sum_from (l : list Z) (a : Z) : fold_left Z.add l a = (a + sum l)%Z.
Proof.
  unfold sum. revert a. induction l as [| x l IH]; intros a; simpl.
  - lia.
  - rewrite IH, (IH x). lia.
Qed.

Lemma sum_ones {A : Type} (l : list A) : sum (map (fun _ => 1%Z) l) = len l.
Proof.
  unfold len. induction l as [| x l IH].
  - reflexivity.
  - unfold sum in *. cbn [map fold_left List.length]. rewrite sum_from.
    unfold sum. rewrite IH. lia.
Qed.

Lemma append_loop {A B : Type} (f : A -> B) (l : list A) (acc : list B) :
  fold_left (fun results i => results ++ [f i]) l acc = acc ++ map f l.
Proof.
  revert acc. induction l as [| x l IH]; intros acc; simpl.
  - now rewrite app_nil_r.
  - rewrite IH, <- app_assoc. reflexivity.
Qed.

Lemma range_len {A : Type} (l : list A) : range (len l) = map Z.of_nat (seq 0 (List.length l)).
Proof. unfold range, len. now rewrite Nat2Z.id. Qed.

Lemma nth_error_range (n i : nat) :
  (i < n)%nat -> nth_error (map Z.of_nat (seq 0 n)) i = Some (Z.of_nat i).
Proof.
  intros H. rewrite nth_error_map.
  rewrite (nth_error_nth' _ 0%nat) by now rewrite length_seq.
  rewrite seq_nth by assumption. reflexivity.
Qed.

(** ** Short and long texts *)

Lemma strip_nil : PyStr.strip [] = [].
Proof. reflexivity. Qed.

Lemma short_test (text : str) (n : Z) :
  (0 < n)%Z ->
  negb (nonempty text) || (len (PyStr.strip text) <? n)%Z
  = (len (PyStr.strip text) <? n)%Z.
Proof.
  intros Hn. destruct text as [| c text]; [| reflexivity].
  rewrite strip_nil. cbn [nonempty negb orb]. symmetry. apply Z.ltb_lt.
  unfold len. simpl. lia.
Qed.

Lemma advanced_ai_detection_short (text : str) :
  (len (PyStr.strip text) < 20)%Z ->
  advanced_ai_detection text =
    [ (u"ai_probability", VFloat f0_5);
      (u"note", VStr note_too_short);
      (u"confidence", VInt 50);
      (u"language", VStr (detect_language_advanced text)) ].
Proof.
  intros H. unfold advanced_ai_detection.
  rewrite short_test by lia.
  apply Z.ltb_lt in H. now rewrite H.
Qed.

Lemma advanced_ai_detection_long (text : str) :
  (20 <= len (PyStr.strip text))%Z ->
  advanced_ai_detection text =
    let ai_probability := ai_probability_of (avg_sentence_len_of (sentences_of text)) in
    [ (u"ai_probability", VFloat (PyFloat.round ai_probability 3));
      (u"human_probability",
        VFloat (PyFloat.round (PyFloat.sub (PyFloat.of_int 1) ai_probability) 3));
      (u"note", VStr (note_of ai_probability));
      (u"confidence", VInt 80);
      (u"language", VStr (detect_language_advanced text));
      (u"analysis",
        VDict [ (u"word_count", VInt (len (PyStr.split text)));
                (u"avg_sentence_length",
                  round (avg_sentence_len_of (sentences_of text)) 1) ]) ].
Proof.
  intros H. unfold advanced_ai_detection.
  rewrite short_test by lia.
  apply Z.ltb_ge in H. now rewrite H.
Qed.

(** The probability is one of the three constants. *)
Lemma ai_probability_cases (avg : value) :
  ai_probability_of avg = f0_7 \/ ai_probability_of avg = f0_3
  \/ ai_probability_of avg = f0_5.
Proof.
  unfold ai_probability_of.
  destruct (num_gt avg 25); [now left |].
  destruct (num_lt avg 10); [right; now left | right; now right].
Qed.

(** Both thresholds of the note are strict, so none of the three
    constants passes them. *)
Lemma note_of_ai_probability (avg : value) :
  note_of (ai_probability_of avg) = note_inconclusive.
Proof.
  destruct (ai_probability_cases avg) as [H | [H | H]]; rewrite H; reflexivity.
Qed.

(** ** The AI-likelihood scorer *)

(** C4: a text whose trimmed length is below 20 gets the short result:
    probability 0.5, confidence 50, the too-short note, the language of
    the classifier, and nothing else; there is neither an [analysis]
    block nor a [human_probability]. *)
Theorem advanced_ai_detection_short_circuit (text : str) :
  (len (PyStr.strip text) < 20)%Z ->
  let result := advanced_ai_detection text in
  Dict.get result u"ai_probability" = Some (VFloat f0_5)
  /\ Dict.get result u"confidence" = Some (VInt 50)
  /\ Dict.get result u"note" = Some (VStr note_too_short)
  /\ Dict.get result u"language" = Some (VStr (detect_language_advanced text))
  /\ Dict.get result u"analysis" = None
  /\ Dict.get result u"human_probability" = None
  /\ map fst result
     = [u"ai_probability"; u"note"; u"confidence"; u"language"].
Proof.
  intros H result. subst result.
  rewrite (advanced_ai_detection_short text H).
  repeat split; dict_get.
Qed.

Lemma advanced_ai_detection_short_circuit_witness :
  (len (PyStr.strip u"Hi") < 20)%Z
  /\ Dict.get (advanced_ai_detection u"Hi") u"analysis" = None.
Proof.
  split.
  - vm_compute. reflexivity.
  - apply (advanced_ai_detection_short_circuit u"Hi"). vm_compute. reflexivity.
Defined.

(** Whatever the average sentence length, a text of trimmed length 20 or
    more gets the inconclusive note. *)
Lemma advanced_ai_detection_note (text : str) :
  (20 <= len (PyStr.strip text))%Z ->
  Dict.get (advanced_ai_detection text) u"note" = Some (VStr note_inconclusive).
Proof.
  intros H. rewrite (advanced_ai_detection_long text H). cbv zeta.
  rewrite note_of_ai_probability. dict_get.
Qed.

(** C1: on thirty words in one sentence the average sentence length is
    30 and the probability is 0.7, but the note is the inconclusive one,
    not the high-likelihood one: [0.7 > 0.7] is false. *)
Theorem advanced_ai_detection_thirty_words :
  (20 <= len (PyStr.strip thirty_words))%Z
  /\ len (sentences_of thirty_words) = 1%Z
  /\ avg_sentence_len_of (sentences_of thirty_words) = VFloat (PyFloat.of_int 30)
  /\ Dict.get (advanced_ai_detection thirty_words) u"ai_probability"
     = Some (VFloat f0_7)
  /\ Dict.get (advanced_ai_detection thirty_words) u"note"
     = Some (VStr note_inconclusive)
  /\ note_inconclusive <> note_high.
Proof.
  repeat split; try (vm_compute; reflexivity); vm_compute; discriminate.
Qed.

(** C7: when both probabilities are present, that is for a text of
    trimmed length 20 or more, [human_probability] is
    [round(1 - ai_probability, 3)] and the two add up to 1. *)
Theorem human_probability_complement (text : str) :
  (20 <= len (PyStr.strip text))%Z ->
  exists ai human : PyFloat.float,
    Dict.get (advanced_ai_detection text) u"ai_probability" = Some (VFloat ai)
    /\ Dict.get (advanced_ai_detection text) u"human_probability"
       = Some (VFloat human)
    /\ human = PyFloat.round (PyFloat.sub (PyFloat.of_int 1) ai) 3
    /\ PyFloat.eqb (PyFloat.add ai human) (PyFloat.of_int 1) = true.
Proof.
  intros H. rewrite (advanced_ai_detection_long text H). cbv zeta.
  destruct (ai_probability_cases (avg_sentence_len_of (sentences_of text)))
    as [E | [E | E]]; rewrite E;
    do 2 eexists; (split; [dict_get |]); (split; [dict_get |]);
    split; vm_compute; reflexivity.
Qed.

Lemma human_probability_complement_witness :
  (20 <= len (PyStr.strip thirty_words))%Z
  /\ exists ai human : PyFloat.float,
       Dict.get (advanced_ai_detection thirty_words) u"ai_probability"
       = Some (VFloat ai)
       /\ Dict.get (advanced_ai_detection thirty_words) u"human_probability"
          = Some (VFloat human)
       /\ human = PyFloat.round (PyFloat.sub (PyFloat.of_int 1) ai) 3
       /\ PyFloat.eqb (PyFloat.add ai human) (PyFloat.of_int 1) = true.
Proof.
  split.
  - vm_compute. discriminate.
  - apply (human_probability_complement thirty_words). vm_compute. discriminate.
Defined.

(** ** The handler of [/api/detect_ai] *)

(** A missing or falsy [text] raises the 400 error inside the [try]
    block, whose [except Exception] clause catches it and raises a 500
    error in its place. *)
Lemma detect_ai_without_text (payload : dict) :
  truthy (Dict.get_default payload u"text" (VStr u"")) = false ->
  detect_ai payload
  = Raise (HTTPException 500 (Str (HTTPException 400 (Text detail_text_required)))).
Proof.
  intros H. unfold detect_ai. cbv zeta. rewrite H. reflexivity.
Qed.

(** C2: with an empty or a missing [text] the caller gets status 500; the
    400 error with the text-is-required detail is only what the 500
    error quotes. *)
Theorem detect_ai_empty_text_status :
  detect_ai [ (u"text", VStr u"") ]
  = Raise (HTTPException 500 (Str (HTTPException 400 (Text detail_text_required))))
  /\ detect_ai []
     = Raise (HTTPException 500 (Str (HTTPException 400 (Text detail_text_required))))
  /\ status_code_of (detect_ai [ (u"text", VStr u"") ]) = 500%Z
  /\ status_code_of (detect_ai []) = 500%Z.
Proof.
  repeat split; reflexivity.
Qed.

(** ** The handler of [/api/check_plagiarism] *)

Lemma check_plagiarism_list (payload : dict) (references : list value) :
  Dict.get_default payload u"references" (VList []) = VList references ->
  check_plagiarism payload
  = Return [ (u"scores",
               VList (map similarity_entry (range (len references))));
             (u"summary",
               VDict [ (u"total_references", VInt (len references));
                       (u"highest_similarity", VFloat f0_3);
                       (u"average_similarity", VFloat f0_2) ]) ].
Proof.
  intros H. unfold check_plagiarism. cbv zeta. rewrite H.
  cbn [py_len bind try_except]. rewrite append_loop. reflexivity.
Qed.

Lemma get_default_some (d : dict) (k : str) (v default : value) :
  Dict.get d k = Some v -> Dict.get_default d k default = v.
Proof. intros H. unfold Dict.get_default. now rewrite H. Qed.

Lemma scores_of_list (payload : dict) (references : list value) :
  Dict.get_default payload u"references" (VList []) = VList references ->
  scores_of (check_plagiarism payload)
  = map similarity_entry (map Z.of_nat (seq 0 (List.length references))).
Proof.
  intros H. rewrite (check_plagiarism_list payload references H), range_len.
  unfold scores_of. dict_get.
Qed.

Lemma nth_error_scores (payload : dict) (references : list value) (i : nat) :
  Dict.get_default payload u"references" (VList []) = VList references ->
  (i < List.length references)%nat ->
  nth_error (scores_of (check_plagiarism payload)) i
  = Some (similarity_entry (Z.of_nat i)).
Proof.
  intros H Hi. rewrite (scores_of_list payload references H), nth_error_map.
  now rewrite nth_error_range.
Qed.

(** The first thousand entries show the decimals 0.1, 0.2, 0.3, ... and
    10, 20, 30, ... *)
Lemma similarity_entry_decimal (i : nat) :
  (i < 1000)%nat -> entry_is_decimal i (similarity_entry (Z.of_nat i)) = true.
Proof.
  intros H.
  assert (All : forallb (fun i => entry_is_decimal i (similarity_entry (Z.of_nat i)))
                        (seq 0 1000) = true) by (vm_compute; reflexivity).
  rewrite forallb_forall in All. apply All, in_seq. lia.
Qed.

(** The first ten entries are within range. *)
Lemma similarity_entry_in_range (i : nat) :
  (i <= 9)%nat -> entry_in_range (similarity_entry (Z.of_nat i)) = true.
Proof.
  intros H.
  assert (All : forallb (fun i => entry_in_range (similarity_entry (Z.of_nat i)))
                        (seq 0 10) = true) by (vm_compute; reflexivity).
  rewrite forallb_forall in All. apply All, in_seq. lia.
Qed.

(** With eleven references the last entry has score 1.1 and percentage
    110: the scores are not all within [0,1]. *)
Lemma check_plagiarism_eleven_references :
  nth_error (scores_of (check_plagiarism (payload_of u"x" (references_of 11)))) 10
  = Some (VDict [ (u"ref_index", VInt 10);
                  (u"score", VFloat (PyFloat.literal 11 10));
                  (u"percentage", VFloat (PyFloat.of_int 110));
                  (u"status", VStr u"high") ])
  /\ PyFloat.ltb (PyFloat.of_int 1) (PyFloat.literal 11 10) = true
  /\ PyFloat.ltb (PyFloat.of_int 100) (PyFloat.of_int 110) = true
  /\ ~ (forall entry : value,
          In entry (scores_of (check_plagiarism (payload_of u"x" (references_of 11)))) ->
          entry_in_range entry = true).
Proof.
  split; [vm_compute; reflexivity |].
  split; [vm_compute; reflexivity |].
  split; [vm_compute; reflexivity |].
  intros H.
  specialize (H (similarity_entry 10)).
  assert (E : entry_in_range (similarity_entry 10) = false) by (vm_compute; reflexivity).
  rewrite H in E; [discriminate |].
  apply nth_error_In with (n := 10%nat). vm_compute. reflexivity.
Qed.

(** C3, amended: every entry at index 0 to 9 has its score in [0,1] and
    its percentage in [0,100]; the score shows the decimal (i+1)/10 and
    the percentage 10*(i+1), a hundred times that decimal.  Later
    entries are not clamped. *)
Theorem check_plagiarism_first_ten_in_range
    (payload : dict) (references : list value) (i : nat) (entry : value) :
  Dict.get payload u"references" = Some (VList references) ->
  nth_error (scores_of (check_plagiarism payload)) i = Some entry ->
  (i <= 9)%nat ->
  entry_in_range entry = true /\ entry_is_decimal i entry = true.
Proof.
  intros Hrefs Hnth Hi.
  apply get_default_some with (default := VList []) in Hrefs.
  assert (Hlen : (i < List.length references)%nat).
  { apply nth_error_Some. intros E.
    rewrite (scores_of_list payload references Hrefs) in Hnth.
    apply nth_error_None in E.
    assert (nth_error (map similarity_entry
                         (map Z.of_nat (seq 0 (List.length references)))) i = None)
      as N by (apply nth_error_None; rewrite !length_map, length_seq; exact E).
    congruence. }
  rewrite (nth_error_scores payload references i Hrefs Hlen) in Hnth.
  injection Hnth as <-. split.
  - now apply similarity_entry_in_range.
  - apply similarity_entry_decimal. lia.
Qed.

Lemma check_plagiarism_first_ten_in_range_witness :
  nth_error (scores_of (check_plagiarism (payload_of u"x" (references_of 3)))) 2
  = Some (similarity_entry 2)
  /\ entry_in_range (similarity_entry 2) = true
  /\ entry_is_decimal 2 (similarity_entry 2) = true.
Proof.
  split; [vm_compute; reflexivity |].
  apply (check_plagiarism_first_ten_in_range
           (payload_of u"x" (references_of 3)) (repeat (VStr u"a") 3) 2).
  - reflexivity.
  - vm_compute. reflexivity.
  - lia.
Defined.

(** C5: the results have one entry per reference, the entry at position
    [i] has [ref_index] [i] and the score [round(0.1 + i * 0.1, 2)],
    which shows the decimal (i+1)/10; three references give the scores
    0.1, 0.2, 0.3, the percentages 10, 20, 30 and the status low. *)
Theorem check_plagiarism_scores (payload : dict) (references : list value) :
  Dict.get payload u"references" = Some (VList references) ->
  let results := scores_of (check_plagiarism payload) in
  check_plagiarism payload
     = Return [ (u"scores", VList results);
                (u"summary",
                  VDict [ (u"total_references", VInt (len references));
                          (u"highest_similarity", VFloat f0_3);
                          (u"average_similarity", VFloat f0_2) ]) ]
  /\ List.length results = List.length references
  /\ (forall i : nat,
        (i < List.length references)%nat ->
        exists percentage status,
          nth_error results i
          = Some (VDict
                    [ (u"ref_index", VInt (Z.of_nat i));
                      (u"score",
                        VFloat (PyFloat.round
                                  (PyFloat.add f0_1
                                     (PyFloat.mul (PyFloat.of_int (Z.of_nat i)) f0_1))
                                  2));
                      (u"percentage", VFloat percentage);
                      (u"status", VStr status) ]))
  /\ (forall (i : nat) (entry : value),
        (i < 1000)%nat ->
        nth_error results i = Some entry ->
        exists score,
          float_field entry u"score" = Some score
          /\ PyFloat.eqb score (PyFloat.literal (Pos.of_succ_nat i) 10) = true)
  /\ (List.length references = 3%nat ->
      results
      = [ VDict [ (u"ref_index", VInt 0); (u"score", VFloat f0_1);
                  (u"percentage", VFloat (PyFloat.of_int 10));
                  (u"status", VStr u"low") ];
          VDict [ (u"ref_index", VInt 1); (u"score", VFloat f0_2);
                  (u"percentage", VFloat (PyFloat.of_int 20));
                  (u"status", VStr u"low") ];
          VDict [ (u"ref_index", VInt 2); (u"score", VFloat f0_3);
                  (u"percentage", VFloat (PyFloat.of_int 30));
                  (u"status", VStr u"low") ] ]).
Proof.
  intros Hget results.
  pose proof (get_default_some _ _ _ (VList []) Hget) as Hrefs.
  pose proof (scores_of_list payload references Hrefs) as Hres. fold results in Hres.
  split.
  { rewrite (check_plagiarism_list payload references Hrefs), Hres, range_len.
    reflexivity. }
  split.
  { rewrite Hres, !length_map, length_seq. reflexivity. }
  split.
  { intros i Hi. unfold results.
    rewrite (nth_error_scores payload references i Hrefs Hi).
    unfold similarity_entry. cbv zeta. eauto. }
  split.
  { intros i entry Hi Hnth.
    assert (Hlen : (i < List.length references)%nat).
    { apply nth_error_Some. intros E. apply nth_error_None in E.
      assert (nth_error results i = None) as N
          by (apply nth_error_None; rewrite Hres, !length_map, length_seq; exact E).
      congruence. }
    unfold results in Hnth.
    rewrite (nth_error_scores payload references i Hrefs Hlen) in Hnth.
    injection Hnth as <-.
    pose proof (similarity_entry_decimal i Hi) as D.
    unfold entry_is_decimal in D.
    destruct (float_field (similarity_entry (Z.of_nat i)) u"score") as [score |];
      [| discriminate].
    destruct (float_field (similarity_entry (Z.of_nat i)) u"percentage");
      [| discriminate].
    apply andb_true_iff in D as [D _]. eauto. }
  intros H3. rewrite Hres, H3. vm_compute. reflexivity.
Qed.

Lemma check_plagiarism_scores_witness :
  Dict.get (payload_of u"x" (VList [VStr u"a"; VStr u"b"; VStr u"c"])) u"references"
  = Some (VList [VStr u"a"; VStr u"b"; VStr u"c"])
  /\ List.length
       (scores_of (check_plagiarism
                     (payload_of u"x" (VList [VStr u"a"; VStr u"b"; VStr u"c"]))))
     = 3%nat.
Proof.
  split; [reflexivity |].
  apply (check_plagiarism_scores
           (payload_of u"x" (VList [VStr u"a"; VStr u"b"; VStr u"c"]))
           [VStr u"a"; VStr u"b"; VStr u"c"]).
  reflexivity.
Defined.

(** C6: the summary counts the references and carries the constants 0.3
    and 0.2, whatever the scores are. *)
Theorem check_plagiarism_summary (payload : dict) (references : list value) :
  Dict.get_default payload u"references" (VList []) = VList references ->
  exists body : dict,
    check_plagiarism payload = Return body
    /\ Dict.get body u"summary"
       = Some (VDict [ (u"total_references", VInt (len references));
                       (u"highest_similarity", VFloat f0_3);
                       (u"average_similarity", VFloat f0_2) ]).
Proof.
  intros H. rewrite (check_plagiarism_list payload references H).
  eexists. split; [reflexivity |]. dict_get.
Qed.

Lemma check_plagiarism_summary_witness :
  Dict.get_default (payload_of u"x" (references_of 11)) u"references" (VList [])
  = VList (repeat (VStr u"a") 11)
  /\ exists body : dict,
    check_plagiarism (payload_of u"x" (references_of 11)) = Return body
    /\ Dict.get body u"summary"
       = Some (VDict [ (u"total_references", VInt 11);
                       (u"highest_similarity", VFloat f0_3);
                       (u"average_similarity", VFloat f0_2) ]).
Proof.
  split; [reflexivity |].
  apply (check_plagiarism_summary
           (payload_of u"x" (references_of 11)) (repeat (VStr u"a") 11)).
  reflexivity.
Defined.

(** C9: two payloads with the same [references] get the same outcome,
    whatever their [doc]. *)
Theorem check_plagiarism_ignores_doc (payload1 payload2 : dict) :
  Dict.get payload1 u"references" = Dict.get payload2 u"references" ->
  check_plagiarism payload1 = check_plagiarism payload2.
Proof.
  intros H. unfold check_plagiarism, Dict.get_default. cbv zeta.
  rewrite H. reflexivity.
Qed.

Lemma check_plagiarism_ignores_doc_witness :
  Dict.get (payload_of u"x" (references_of 3)) u"doc"
  <> Dict.get (payload_of u"another document" (references_of 3)) u"doc"
  /\ check_plagiarism (payload_of u"x" (references_of 3))
     = check_plagiarism (payload_of u"another document" (references_of 3)).
Proof.
  split.
  - vm_compute. discriminate.
  - apply (check_plagiarism_ignores_doc
             (payload_of u"x" (references_of 3))
             (payload_of u"another document" (references_of 3))).
    reflexivity.
Defined.

(** C10: without a [references] key, or with an empty list under it, the
    handler returns an empty [scores] list and a summary with no
    references and the constants 0.3 and 0.2; it raises nothing. *)
Theorem check_plagiarism_no_references (payload : dict) :
  Dict.get payload u"references" = None
  \/ Dict.get payload u"references" = Some (VList []) ->
  check_plagiarism payload
  = Return [ (u"scores", VList []);
             (u"summary",
               VDict [ (u"total_references", VInt 0);
                       (u"highest_similarity", VFloat f0_3);
                       (u"average_similarity", VFloat f0_2) ]) ].
Proof.
  intros H.
  assert (E : Dict.get_default payload u"references" (VList []) = VList []).
  { unfold Dict.get_default. destruct H as [H | H]; now rewrite H. }
  rewrite (check_plagiarism_list payload [] E). reflexivity.
Qed.

Lemma check_plagiarism_no_references_witness :
  Dict.get [ (u"doc", VStr u"x") ] u"references" = None
  /\ status_code_of (check_plagiarism [ (u"doc", VStr u"x") ]) = 200%Z
  /\ scores_of (check_plagiarism [ (u"doc", VStr u"x") ]) = [].
Proof.
  split; [reflexivity |].
  rewrite (check_plagiarism_no_references [ (u"doc", VStr u"x") ]).
  - split; reflexivity.
  - left. reflexivity.
Defined.

(** ** The language classifier *)

Ltac bool_cases :=
  repeat match goal with
         | |- context [N.leb ?x ?y] => destruct (N.leb_spec x y)
         | |- context [N.ltb ?x ?y] => destruct (N.ltb_spec x y)
         | |- context [N.eqb ?x ?y] => destruct (N.eqb_spec x y)
         end;
  try reflexivity; try (exfalso; lia).

Lemma leb_single (a b : codepoint) : PyStr.leb [a] [b] = (a <=? b)%N.
Proof. cbn [PyStr.leb]. bool_cases. Qed.

Lemma is_arabic_char_spec (c : codepoint) : is_arabic_char c = in_arabic_block c.
Proof. unfold is_arabic_char, in_arabic_block. now rewrite !leb_single. Qed.

Lemma lower_runs_ok : forallb run_ok Unicode.lower_runs = true.
Proof. vm_compute. reflexivity. Qed.

Lemma in_run_bounds (c lo hi step img : N) :
  Unicode.in_run c (lo, hi, step, img) = true -> (lo <= c <= hi)%N.
Proof.
  unfold Unicode.in_run. intros H.
  apply andb_true_iff in H as [H _]. apply andb_true_iff in H as [H1 H2].
  apply N.leb_le in H1, H2. lia.
Qed.

Lemma not_in_run_step_1 (c lo hi img : N) :
  Unicode.in_run c (lo, hi, 1%N, img) = false -> ~ (lo <= c <= hi)%N.
Proof.
  unfold Unicode.in_run. rewrite N.mod_1_r. intros H [H1 H2].
  apply N.leb_le in H1, H2. rewrite H1, H2 in H. discriminate.
Qed.

(** The code points counted as English are the ASCII letters, U+0130 and
    U+212A. *)
Lemma is_english_char_spec (c : codepoint) : is_english_char c = lowers_into_a_z c.
Proof.
  unfold is_english_char, Unicode.lower_char.
  destruct (N.eqb_spec c 0x130) as [-> | Hne]; [reflexivity |].
  change (u"a") with [0x61%N]. change (u"z") with [0x7A%N].
  unfold lowers_into_a_z, is_ascii_letter.
  destruct (find (Unicode.in_run c) Unicode.lower_runs) as [r |] eqn:F.
  - apply find_some in F as [Hin Hrun].
    pose proof lower_runs_ok as Hok. rewrite forallb_forall in Hok.
    specialize (Hok r Hin). destruct r as [[[lo hi] step] img].
    apply in_run_bounds in Hrun. unfold run_ok in Hok.
    unfold Unicode.image. rewrite !leb_single.
    destruct (N.eqb_spec lo 0x41) as [-> | Hlo].
    { apply andb_true_iff in Hok as [H1 H2].
      apply N.eqb_eq in H1, H2. subst hi img. bool_cases. }
    destruct (N.eqb_spec lo 0x212A) as [-> | Hlo'].
    { apply andb_true_iff in Hok as [H1 H2].
      apply N.eqb_eq in H1, H2. subst hi img. bool_cases. }
    apply andb_true_iff in Hok as [Hok H3]. apply andb_true_iff in Hok as [H1 H2].
    apply N.ltb_lt in H1.
    apply orb_true_iff in H2. apply orb_true_iff in H3.
    rewrite !N.ltb_lt in H2, H3. bool_cases.
  - pose proof (find_none _ _ F) as Hnone.
    pose proof (Hnone (0x41, 0x5A, 1, 0x61)%N
                  (nth_error_In Unicode.lower_runs 0 eq_refl)) as HAZ.
    pose proof (Hnone (0x212A, 0x212A, 1, 0x6B)%N
                  (nth_error_In Unicode.lower_runs 120 eq_refl)) as HK.
    apply not_in_run_step_1 in HAZ, HK.
    rewrite !leb_single. bool_cases.
Qed.

(** Without U+0130 and U+212A only the ASCII letters are counted. *)
Lemma is_english_char_ascii (c : codepoint) :
  c <> 0x130%N -> c <> 0x212A%N -> is_english_char c = is_ascii_letter c.
Proof.
  intros H1 H2. rewrite is_english_char_spec. unfold lowers_into_a_z.
  apply N.eqb_neq in H1, H2. rewrite H1, H2. now rewrite !orb_false_r.
Qed.

(** Ten Kelvin signs are classified as English, although they hold no
    ASCII letter and no Arabic character. *)
Lemma detect_language_advanced_ten_kelvin :
  len (PyStr.strip ten_kelvin) = 10%Z
  /\ count_chars is_ascii_letter ten_kelvin = 0%Z
  /\ count_chars in_arabic_block ten_kelvin = 0%Z
  /\ classify_language is_ascii_letter ten_kelvin = lang_mixed
  /\ detect_language_advanced ten_kelvin = lang_english
  /\ detect_language_advanced ten_kelvin
     <> classify_language is_ascii_letter ten_kelvin.
Proof.
  repeat split; try (vm_compute; reflexivity). vm_compute. discriminate.
Qed.

(** C8, amended: the classifier answers Unknown under 10 trimmed
    characters, and otherwise Arabic, English or Mixed by comparing the
    count of the Arabic block with the count of the characters whose
    lowercase form lies between "a" and "z": the ASCII letters, U+0130
    and U+212A. *)
Theorem detect_language_advanced_classifies (text : str) :
  detect_language_advanced text = classify_language lowers_into_a_z text.
Proof.
  unfold detect_language_advanced, classify_language, count_chars.
  rewrite short_test by lia. rewrite !sum_ones.
  rewrite (filter_ext _ _ is_arabic_char_spec).
  rewrite (filter_ext _ _ is_english_char_spec).
  reflexivity.
Qed.

(** On a text without U+0130 and U+212A the English count is the count of
    the ASCII letters. *)
Lemma detect_language_advanced_ascii (text : str) :
  ~ In 0x130%N text -> ~ In 0x212A%N text ->
  detect_language_advanced text = classify_language is_ascii_letter text.
Proof.
  intros H1 H2.
  unfold detect_language_advanced, classify_language, count_chars.
  rewrite short_test by lia. rewrite !sum_ones.
  rewrite (filter_ext _ _ is_arabic_char_spec).
  replace (filter is_english_char text) with (filter is_ascii_letter text);
    [reflexivity |].
  induction text as [| c text IH]; [reflexivity |].
  assert (Hc1 : c <> 0x130%N) by (intros ->; apply H1; now left).
  assert (Hc2 : c <> 0x212A%N) by (intros ->; apply H2; now left).
  cbn [filter]. rewrite (is_english_char_ascii c Hc1 Hc2), IH; [reflexivity | |];
    intros H; [apply H1 | apply H2]; now right.
Qed.

(** * Further properties *)

(** ** Strings: stripping and splitting *)

Lemma str_eqb_eq (a b : str) : PyStr.eqb a b = true <-> a = b.
Proof.
  revert b. induction a as [| x a IH]; intros [| y b]; simpl;
    try (split; [discriminate | discriminate]); [tauto |].
  rewrite andb_true_iff, N.eqb_eq, IH. split.
  - intros [-> ->]. reflexivity.
  - intros E. injection E as -> ->. split; reflexivity.
Qed.

Lemma str_eqb_neq (a b : str) : PyStr.eqb a b = false <-> a <> b.
Proof.
  rewrite <- str_eqb_eq. destruct (PyStr.eqb a b); split; congruence.
Qed.


Lemma lstrip_spaces (ws x : str) :
  all_space ws -> PyStr.lstrip (ws ++ x) = PyStr.lstrip x.
Proof.
  induction 1 as [| c ws Hc _ IH]; [reflexivity |].
  cbn [app PyStr.lstrip]. now rewrite Hc.
Qed.

Lemma lstrip_all_space (ws : str) : all_space ws -> PyStr.lstrip ws = [].
Proof.
  intros H. rewrite <- (app_nil_r ws). now rewrite lstrip_spaces.
Qed.

Lemma lstrip_head (s t : str) (c : codepoint) :
  PyStr.lstrip s = c :: t -> PyStr.isspace c = false.
Proof.
  induction s as [| d s IH]; [discriminate |].
  cbn [PyStr.lstrip]. destruct (PyStr.isspace d) eqn:E; [exact IH |].
  intros H. injection H as -> _. exact E.
Qed.

Lemma lstrip_nil (s : str) : PyStr.lstrip s = [] -> all_space s.
Proof.
  induction s as [| d s IH]; [constructor |].
  cbn [PyStr.lstrip]. destruct (PyStr.isspace d) eqn:E; [| discriminate].
  intros H. constructor; [exact E | exact (IH H)].
Qed.

Lemma lstrip_split (s : str) :
  exists ws, all_space ws /\ s = ws ++ PyStr.lstrip s.
Proof.
  induction s as [| d s [ws [Hws E]]].
  - exists []. split; [constructor | reflexivity].
  - cbn [PyStr.lstrip]. destruct (PyStr.isspace d) eqn:Hd.
    + exists (d :: ws). split; [now constructor |]. cbn [app]. now rewrite <- E.
    + exists []. split; [constructor | reflexivity].
Qed.

Lemma lstrip_app (s x t : str) (c : codepoint) :
  PyStr.lstrip s = c :: t -> PyStr.lstrip (s ++ x) = c :: t ++ x.
Proof.
  intros H. pose proof (lstrip_head s t c H) as Hc.
  destruct (lstrip_split s) as [ws [Hws E]].
  rewrite E at 1. rewrite <- app_assoc, lstrip_spaces by assumption.
  rewrite H. cbn [app PyStr.lstrip]. now rewrite Hc.
Qed.

Lemma lstrip_idem (s : str) : PyStr.lstrip (PyStr.lstrip s) = PyStr.lstrip s.
Proof.
  destruct (PyStr.lstrip s) as [| c t] eqn:E; [reflexivity |].
  cbn [PyStr.lstrip]. now rewrite (lstrip_head s t c E).
Qed.

Lemma in_lstrip (s : str) (c : codepoint) : In c (PyStr.lstrip s) -> In c s.
Proof.
  destruct (lstrip_split s) as [ws [_ E]]. intros H.
  rewrite E. apply in_or_app. now right.
Qed.

Lemma rstrip_spaces (x ws : str) :
  all_space ws -> PyStr.rstrip (x ++ ws) = PyStr.rstrip x.
Proof.
  intros H. unfold PyStr.rstrip. rewrite rev_app_distr, lstrip_spaces; [reflexivity |].
  now apply Forall_rev.
Qed.

Lemma rstrip_cons (c : codepoint) (t : str) :
  PyStr.isspace c = false -> PyStr.rstrip (c :: t) = c :: PyStr.rstrip t.
Proof.
  intros Hc. unfold PyStr.rstrip. cbn [rev].
  destruct (PyStr.lstrip (rev t)) as [| d r] eqn:E.
  - rewrite lstrip_spaces by now apply lstrip_nil.
    cbn [PyStr.lstrip]. now rewrite Hc.
  - rewrite (lstrip_app (rev t) [c] r d E).
    change (d :: r ++ [c]) with ((d :: r) ++ [c]). now rewrite rev_app_distr.
Qed.

Lemma rstrip_idem (s : str) : PyStr.rstrip (PyStr.rstrip s) = PyStr.rstrip s.
Proof.
  unfold PyStr.rstrip. now rewrite rev_involutive, lstrip_idem.
Qed.

Lemma in_rstrip (s : str) (c : codepoint) : In c (PyStr.rstrip s) -> In c s.
Proof.
  unfold PyStr.rstrip. intros H. apply in_rev in H. apply in_lstrip in H.
  now apply in_rev.
Qed.

Lemma in_strip (s : str) (c : codepoint) : In c (PyStr.strip s) -> In c s.
Proof.
  unfold PyStr.strip. intros H. now apply in_lstrip, in_rstrip.
Qed.

(** A stripped string is empty or starts with a character that is not
    whitespace. *)
Lemma strip_cases (s : str) :
  (PyStr.strip s = [] /\ all_space s)
  \/ exists c t, PyStr.isspace c = false
                 /\ PyStr.lstrip s = c :: t
                 /\ PyStr.strip s = c :: PyStr.rstrip t.
Proof.
  unfold PyStr.strip. destruct (PyStr.lstrip s) as [| c t] eqn:E.
  - left. split; [reflexivity | now apply lstrip_nil].
  - right. exists c, t. pose proof (lstrip_head s t c E) as Hc.
    repeat split; [assumption |]. now apply rstrip_cons.
Qed.

Lemma strip_idem (s : str) : PyStr.strip (PyStr.strip s) = PyStr.strip s.
Proof.
  destruct (strip_cases s) as [[E _] | [c [t [Hc [_ E]]]]]; rewrite E.
  - reflexivity.
  - unfold PyStr.strip. cbn [PyStr.lstrip]. rewrite Hc.
    rewrite (rstrip_cons c _ Hc). now rewrite rstrip_idem.
Qed.

Lemma strip_all_space (s : str) : all_space s -> PyStr.strip s = [].
Proof.
  intros H. unfold PyStr.strip. now rewrite (lstrip_all_space s H).
Qed.

(** Whitespace around a string does not change what [strip] returns. *)
Lemma strip_padding (ws1 ws2 s : str) :
  all_space ws1 -> all_space ws2 ->
  PyStr.strip (ws1 ++ s ++ ws2) = PyStr.strip s.
Proof.
  intros H1 H2. unfold PyStr.strip. rewrite (lstrip_spaces ws1 _ H1).
  destruct (PyStr.lstrip s) as [| c t] eqn:E.
  - rewrite lstrip_spaces by now apply lstrip_nil.
    now rewrite (lstrip_all_space ws2 H2).
  - rewrite (lstrip_app s ws2 t c E).
    change (c :: t ++ ws2) with ((c :: t) ++ ws2). now apply rstrip_spaces.
Qed.

(** ** Deciding hypotheses on given texts *)

Lemma Forall_true_by (p : codepoint -> bool) (l : str) :
  forallb p l = true -> Forall (fun c => p c = true) l.
Proof. intros H. apply Forall_forall. now apply forallb_forall. Qed.

Lemma Forall_false_by (p : codepoint -> bool) (l : str) :
  forallb (fun c => negb (p c)) l = true -> Forall (fun c => p c = false) l.
Proof.
  intros H. apply Forall_forall. intros c Hc.
  apply negb_true_iff. revert c Hc. now apply forallb_forall.
Qed.

Lemma Exists_true_by (p : codepoint -> bool) (l : str) :
  existsb p l = true -> Exists (fun c => p c = true) l.
Proof. intros H. apply Exists_exists. now apply existsb_exists. Qed.

Lemma same_class_by (t1 t2 : str) :
  List.length t1 = List.length t2 ->
  forallb (fun ab => Bool.eqb (PyStr.isspace (fst ab)) (PyStr.isspace (snd ab))
                     && Bool.eqb (in_arabic_block (fst ab)) (in_arabic_block (snd ab))
                     && Bool.eqb (lowers_into_a_z (fst ab)) (lowers_into_a_z (snd ab)))
          (combine t1 t2) = true ->
  Forall2 same_class t1 t2.
Proof.
  revert t2. induction t1 as [| a t1 IH]; intros [| b t2] L H; try discriminate.
  - constructor.
  - cbn [combine forallb fst snd] in H.
    apply andb_true_iff in H as [H Ht]. apply andb_true_iff in H as [H H3].
    apply andb_true_iff in H as [H1 H2].
    apply Bool.eqb_prop in H1, H2, H3.
    constructor; [repeat split; assumption |].
    apply IH; [now injection L | exact Ht].
Qed.

Lemma split_from_nonempty (cur s : str) :
  cur <> [] -> PyStr.split_ws_from cur s <> [].
Proof.
  revert cur. induction s as [| c s IH]; intros cur H.
  - cbn. destruct cur; [congruence | discriminate].
  - cbn [PyStr.split_ws_from]. destruct (PyStr.isspace c).
    + destruct cur; [congruence | discriminate].
    + apply IH. discriminate.
Qed.

Lemma split_lstrip (s : str) :
  PyStr.split s = PyStr.split (PyStr.lstrip s).
Proof.
  unfold PyStr.split. induction s as [| c s IH]; [reflexivity |].
  cbn [PyStr.lstrip]. destruct (PyStr.isspace c) eqn:E; [| reflexivity].
  cbn [PyStr.split_ws_from]. now rewrite E.
Qed.

(** [split()] finds no word exactly when [strip()] leaves nothing. *)
Lemma split_nil_iff (s : str) : PyStr.split s = [] <-> PyStr.strip s = [].
Proof.
  destruct (strip_cases s) as [[E Hs] | [c [t [Hc [El E]]]]].
  - split; [intros _; exact E | intros _].
    rewrite split_lstrip, (lstrip_all_space s Hs). reflexivity.
  - rewrite E. split; [| discriminate].
    rewrite split_lstrip, El. unfold PyStr.split.
    cbn [PyStr.split_ws_from]. rewrite Hc. intros H.
    now apply split_from_nonempty in H.
Qed.

Lemma split_from_length (cur s : str) :
  (List.length (PyStr.split_ws_from cur s)
   <= (if nonempty cur then 1 else 0) + List.length s)%nat.
Proof.
  revert cur. induction s as [| c s IH]; intros cur.
  - destruct cur; cbn; lia.
  - cbn [PyStr.split_ws_from]. destruct (PyStr.isspace c).
    + specialize (IH []). destruct cur; cbn [nonempty List.length] in *; lia.
    + specialize (IH (c :: cur)). cbn [nonempty List.length] in *.
      destruct cur; cbn [nonempty]; lia.
Qed.

(** Every word found by [split()] is non-empty and free of whitespace. *)
Lemma split_from_words (cur s w : str) :
  Forall (fun c => PyStr.isspace c = false) cur ->
  In w (PyStr.split_ws_from cur s) ->
  w <> [] /\ Forall (fun c => PyStr.isspace c = false) w.
Proof.
  revert cur. induction s as [| c s IH]; intros cur Hcur Hin.
  - destruct cur as [| d cur]; [destruct Hin |].
    destruct Hin as [<- | []]. split.
    + intros E. apply (f_equal (@rev codepoint)) in E.
      rewrite rev_involutive in E. discriminate.
    + now apply Forall_rev.
  - cbn [PyStr.split_ws_from] in Hin. destruct (PyStr.isspace c) eqn:Hc.
    + destruct cur as [| d cur]; [now apply (IH []) |].
      destruct Hin as [<- | Hin]; [| apply (IH []); [constructor | exact Hin]].
      split.
      * intros E. apply (f_equal (@rev codepoint)) in E.
        rewrite rev_involutive in E. discriminate.
      * now apply Forall_rev.
    + apply (IH (c :: cur)); [now constructor | exact Hin].
Qed.

Lemma split_on_from_chars (sep : codepoint) (s cur p : str) (c : codepoint) :
  In p (PyStr.split_on_from sep cur s) -> In c p -> In c cur \/ In c s.
Proof.
  revert cur. induction s as [| d s IH]; intros cur Hp Hc.
  - destruct Hp as [<- | []]. left. now apply in_rev.
  - cbn [PyStr.split_on_from] in Hp. destruct (N.eqb_spec d sep) as [-> | Hd].
    + destruct Hp as [<- | Hp].
      * left. now apply in_rev.
      * destruct (IH [] Hp Hc) as [[] | H]. right. now right.
    + destruct (IH (d :: cur) Hp Hc) as [[<- | H] | H].
      * right. now left.
      * now left.
      * right. now right.
Qed.

Lemma split_on_from_no_sep (sep : codepoint) (s cur p : str) :
  ~ In sep cur -> In p (PyStr.split_on_from sep cur s) -> ~ In sep p.
Proof.
  revert cur. induction s as [| d s IH]; intros cur Hcur Hp.
  - destruct Hp as [<- | []]. intros H. now apply in_rev in H.
  - cbn [PyStr.split_on_from] in Hp. destruct (N.eqb_spec d sep) as [-> | Hd].
    + destruct Hp as [<- | Hp].
      * intros H. now apply in_rev in H.
      * apply (IH []); [intros [] | exact Hp].
    + apply (IH (d :: cur)); [| exact Hp].
      intros [H | H]; [congruence | now apply Hcur].
Qed.

Lemma in_replace (old new c : codepoint) (s : str) :
  In c (PyStr.replace old new s) -> c = new \/ (In c s /\ c <> old).
Proof.
  unfold PyStr.replace. rewrite in_map_iff. intros [d [E Hd]].
  destruct (N.eqb_spec d old) as [Heq | Hne].
  - left. now symmetry.
  - right. subst c. now split.
Qed.

(** After the three replacements every character is a full stop or a
    character of the text that is no terminator. *)
Lemma in_replaced (text : str) (c : codepoint) :
  In c (PyStr.replace 0x61F%N 0x2E%N
          (PyStr.replace 0x3F%N 0x2E%N
             (PyStr.replace 0x21%N 0x2E%N text))) ->
  c = 0x2E%N \/ (In c text /\ is_terminator c = false).
Proof.
  intros H.
  apply in_replace in H as [H | [H H3]]; [now left |].
  apply in_replace in H as [H | [H H2]]; [now left |].
  apply in_replace in H as [H | [H H1]]; [now left |].
  destruct (N.eqb_spec c 0x2E) as [E | H0]; [now left | right].
  split; [exact H |]. unfold is_terminator.
  apply N.eqb_neq in H0, H1, H2, H3. now rewrite H0, H1, H2, H3.
Qed.

Lemma in_sentences (text s : str) :
  In s (sentences_of text) ->
  exists piece,
    s = PyStr.strip piece /\ s <> []
    /\ ~ In 0x2E%N piece
    /\ forall c, In c piece -> In c text /\ is_terminator c = false.
Proof.
  unfold sentences_of. rewrite in_map_iff. intros [piece [E H]].
  apply filter_In in H as [Hp Hne]. exists piece.
  assert (Hdot : ~ In 0x2E%N piece)
    by (apply (split_on_from_no_sep _ _ [] piece (fun F => F) Hp)).
  split; [now symmetry |].
  split; [rewrite <- E; destruct (PyStr.strip piece); discriminate |].
  split; [exact Hdot |].
  intros c H.
  destruct (split_on_from_chars _ _ _ _ c Hp H) as [[] | Hc].
  apply in_replaced in Hc as [-> | Hc]; [contradiction | exact Hc].
Qed.

(** ** Sentences and words of the scorer *)

(** X8: every sentence is non-empty, carries no whitespace at either end,
    is made of characters of the text, none of them a terminator, and
    holds at least one word. *)
Theorem sentences_of_invariants (text s : str) :
  In s (sentences_of text) ->
  s <> []
  /\ PyStr.strip s = s
  /\ Forall (fun c => In c text /\ is_terminator c = false) s
  /\ (1 <= len (PyStr.split s))%Z.
Proof.
  intros H. destruct (in_sentences text s H) as [piece [E [Hne [_ Hchars]]]].
  assert (Hs : PyStr.strip s = s) by (rewrite E; apply strip_idem).
  split; [exact Hne |]. split; [exact Hs |]. split.
  - apply Forall_forall. intros c Hc. apply Hchars.
    rewrite E in Hc. now apply in_strip.
  - unfold len. destruct (PyStr.split s) eqn:W; [| cbn [List.length]; lia].
    apply split_nil_iff in W. congruence.
Qed.

Lemma sentences_of_invariants_witness :
  In u"Yes" (sentences_of u"Is it so? Yes! It is. ")
  /\ PyStr.strip u"Yes" = u"Yes".
Proof.
  split; [vm_compute; tauto |].
  apply (sentences_of_invariants u"Is it so? Yes! It is. " u"Yes").
  vm_compute. tauto.
Defined.

Lemma no_sentence (text : str) :
  Forall (fun c => PyStr.isspace c || is_terminator c = true) text ->
  sentences_of text = [].
Proof.
  intros H. destruct (sentences_of text) as [| s l] eqn:E; [reflexivity |].
  assert (Hin : In s (sentences_of text)) by (rewrite E; now left).
  destruct (in_sentences text s Hin) as [piece [Es [Hne [_ Hchars]]]].
  exfalso. apply Hne. rewrite Es. apply strip_all_space.
  apply Forall_forall. intros c Hc. destruct (Hchars c Hc) as [Ht Hterm].
  rewrite Forall_forall in H. specialize (H c Ht).
  rewrite Hterm, orb_false_r in H. exact H.
Qed.

(** X9: a text of terminators and whitespace only has no sentence; when
    its trimmed length is 20 or more the average is the integer 0 and
    the probability is 0.3. *)
Theorem advanced_ai_detection_no_sentence (text : str) :
  (20 <= len (PyStr.strip text))%Z ->
  Forall (fun c => PyStr.isspace c || is_terminator c = true) text ->
  sentences_of text = []
  /\ Dict.get (advanced_ai_detection text) u"ai_probability" = Some (VFloat f0_3)
  /\ Dict.get (advanced_ai_detection text) u"human_probability"
     = Some (VFloat f0_7)
  /\ Dict.get (advanced_ai_detection text) u"analysis"
     = Some (VDict [ (u"word_count", VInt (len (PyStr.split text)));
                     (u"avg_sentence_length", VInt 0) ]).
Proof.
  intros Hlen H. pose proof (no_sentence text H) as E.
  split; [exact E |].
  rewrite (advanced_ai_detection_long text Hlen). cbv zeta. rewrite E.
  change (avg_sentence_len_of []) with (VInt 0).
  change (ai_probability_of (VInt 0)) with f0_3.
  repeat split; dict_get.
Qed.

Lemma advanced_ai_detection_no_sentence_witness :
  (20 <= len (PyStr.strip u"... ?!. ... ?!. ... ?!."))%Z
  /\ sentences_of u"... ?!. ... ?!. ... ?!." = [].
Proof.
  split; [vm_compute; discriminate |].
  apply (advanced_ai_detection_no_sentence u"... ?!. ... ?!. ... ?!.").
  - vm_compute. discriminate.
  - apply Forall_true_by. vm_compute. reflexivity.
Defined.

(** X10: the word count of a text of trimmed length 20 or more lies
    between 1 and the number of characters, and every word counted is
    non-empty and free of whitespace. *)
Theorem advanced_ai_detection_word_count (text : str) :
  (20 <= len (PyStr.strip text))%Z ->
  (exists avg : value,
      Dict.get (advanced_ai_detection text) u"analysis"
      = Some (VDict [ (u"word_count", VInt (len (PyStr.split text)));
                      (u"avg_sentence_length", avg) ]))
  /\ (1 <= len (PyStr.split text) <= len text)%Z
  /\ Forall (fun w => w <> [] /\ Forall (fun c => PyStr.isspace c = false) w)
            (PyStr.split text).
Proof.
  intros Hlen. split; [| split].
  - rewrite (advanced_ai_detection_long text Hlen). cbv zeta.
    eexists. dict_get.
  - split.
    + unfold len. destruct (PyStr.split text) eqn:W; [| cbn [List.length]; lia].
      apply split_nil_iff in W. rewrite W in Hlen. cbn in Hlen. lia.
    + pose proof (split_from_length [] text) as B. cbn [nonempty] in B.
      unfold len, PyStr.split. lia.
  - apply Forall_forall. intros w Hw.
    apply (split_from_words [] text w); [constructor | exact Hw].
Qed.

Lemma advanced_ai_detection_word_count_witness :
  (20 <= len (PyStr.strip thirty_words))%Z
  /\ (1 <= len (PyStr.split thirty_words) <= len thirty_words)%Z.
Proof.
  split; [vm_compute; discriminate |].
  apply (advanced_ai_detection_word_count thirty_words).
  vm_compute. discriminate.
Defined.

(** X6: the note is the too-short one under 20 trimmed characters and the
    inconclusive one otherwise; the high-likelihood and the clearly-human
    notes are never returned. *)
Theorem advanced_ai_detection_note_values (text : str) :
  exists note : str,
    Dict.get (advanced_ai_detection text) u"note" = Some (VStr note)
    /\ note = (if (len (PyStr.strip text) <? 20)%Z
               then note_too_short else note_inconclusive)
    /\ note <> note_high /\ note <> note_human.
Proof.
  destruct (Z.ltb_spec (len (PyStr.strip text)) 20) as [H | H].
  - exists note_too_short. rewrite (advanced_ai_detection_short text H).
    repeat split; try dict_get; vm_compute; discriminate.
  - exists note_inconclusive. rewrite (advanced_ai_detection_note text H).
    repeat split; vm_compute; discriminate.
Qed.

(** X7: the probability is 0.3, 0.5 or 0.7 and lies in [0,1]; when a
    human probability is present the pair is (0.7, 0.3), (0.3, 0.7) or
    (0.5, 0.5). *)
Theorem advanced_ai_detection_probabilities (text : str) :
  exists ai : PyFloat.float,
    Dict.get (advanced_ai_detection text) u"ai_probability" = Some (VFloat ai)
    /\ between 0 1 ai = true
    /\ ((ai = f0_5
         /\ Dict.get (advanced_ai_detection text) u"human_probability" = None)
        \/ exists human : PyFloat.float,
             Dict.get (advanced_ai_detection text) u"human_probability"
             = Some (VFloat human)
             /\ between 0 1 human = true
             /\ ((ai = f0_7 /\ human = f0_3) \/ (ai = f0_3 /\ human = f0_7)
                 \/ (ai = f0_5 /\ human = f0_5))).
Proof.
  destruct (Z.ltb_spec (len (PyStr.strip text)) 20) as [H | H].
  - exists f0_5. rewrite (advanced_ai_detection_short text H).
    split; [dict_get |]. split; [reflexivity |]. left. split; [reflexivity | dict_get].
  - rewrite (advanced_ai_detection_long text H). cbv zeta.
    destruct (ai_probability_cases (avg_sentence_len_of (sentences_of text)))
      as [E | [E | E]]; rewrite E.
    + exists f0_7. split; [dict_get |]. split; [reflexivity |]. right.
      exists f0_3. split; [dict_get |]. split; [reflexivity |]. left. now split.
    + exists f0_3. split; [dict_get |]. split; [reflexivity |]. right.
      exists f0_7. split; [dict_get |]. split; [reflexivity |]. right; left. now split.
    + exists f0_5. split; [dict_get |]. split; [reflexivity |]. right.
      exists f0_5. split; [dict_get |]. split; [reflexivity |]. right; right. now split.
Qed.

(** ** More on the language classifier *)

Lemma detect_language_advanced_counts (text : str) :
  detect_language_advanced text
  = if (len (PyStr.strip text) <? 10)%Z then lang_unknown
    else
      let arabic_chars := len (filter is_arabic_char text) in
      let english_chars := len (filter is_english_char text) in
      if (arabic_chars >? english_chars * 2)%Z then lang_arabic
      else if (english_chars >? arabic_chars * 2)%Z then lang_english
      else lang_mixed.
Proof.
  unfold detect_language_advanced. rewrite short_test by lia.
  now rewrite !sum_ones.
Qed.

Lemma filter_none {A : Type} (p : A -> bool) (l : list A) :
  Forall (fun x => p x = false) l -> filter p l = [].
Proof.
  induction 1 as [| x l Hx _ IH]; [reflexivity |].
  cbn [filter]. now rewrite Hx.
Qed.

Lemma filter_some {A : Type} (p : A -> bool) (l : list A) :
  Exists (fun x => p x = true) l -> (1 <= len (filter p l))%Z.
Proof.
  intros H. apply Exists_exists in H as [x [Hin Hx]].
  assert (Hf : In x (filter p l)) by (apply filter_In; now split).
  unfold len. destruct (filter p l); [destruct Hf | cbn [List.length]; lia].
Qed.

(** X1: the classifier answers "unknown" exactly for the texts of fewer
    than 10 trimmed characters. *)
Theorem detect_language_advanced_unknown (text : str) :
  detect_language_advanced text = lang_unknown
  <-> (len (PyStr.strip text) < 10)%Z.
Proof.
  rewrite detect_language_advanced_counts. cbv zeta.
  destruct (Z.ltb_spec (len (PyStr.strip text)) 10) as [H | H].
  - tauto.
  - split; [| lia].
    destruct (_ >? _)%Z; [vm_compute; discriminate |].
    destruct (_ >? _)%Z; vm_compute; discriminate.
Qed.

Lemma detect_language_advanced_unknown_witness :
  detect_language_advanced u"Hi" = lang_unknown.
Proof.
  apply (detect_language_advanced_unknown u"Hi"). vm_compute. reflexivity.
Defined.

(** X2: a text of 10 or more trimmed characters with an ASCII letter and
    no character of the Arabic block is classified English. *)
Theorem detect_language_advanced_english (text : str) :
  (10 <= len (PyStr.strip text))%Z ->
  Forall (fun c => in_arabic_block c = false) text ->
  Exists (fun c => is_ascii_letter c = true) text ->
  detect_language_advanced text = lang_english.
Proof.
  intros Hlen Har Hen. rewrite detect_language_advanced_counts. cbv zeta.
  apply Z.ltb_ge in Hlen. rewrite Hlen.
  rewrite (filter_ext _ _ is_arabic_char_spec), (filter_none _ _ Har).
  assert (He : (1 <= len (filter is_english_char text))%Z).
  { apply filter_some. eapply Exists_impl; [| exact Hen].
    intros c Hc. rewrite is_english_char_spec. unfold lowers_into_a_z.
    now rewrite Hc. }
  change (len (@nil codepoint)) with 0%Z.
  destruct (Z.gtb_spec 0 (len (filter is_english_char text) * 2)); [lia |].
  destruct (Z.gtb_spec (len (filter is_english_char text)) (0 * 2));
    [reflexivity | lia].
Qed.

Lemma detect_language_advanced_english_witness :
  detect_language_advanced u"1 + 1 = 2, ok?" = lang_english.
Proof.
  apply (detect_language_advanced_english u"1 + 1 = 2, ok?").
  - vm_compute. discriminate.
  - apply Forall_false_by. vm_compute. reflexivity.
  - apply Exists_true_by. vm_compute. reflexivity.
Defined.

(** X3: a text of 10 or more trimmed characters with a character of the
    Arabic block and no character that counts as English is classified
    Arabic. *)
Theorem detect_language_advanced_arabic (text : str) :
  (10 <= len (PyStr.strip text))%Z ->
  Forall (fun c => lowers_into_a_z c = false) text ->
  Exists (fun c => in_arabic_block c = true) text ->
  detect_language_advanced text = lang_arabic.
Proof.
  intros Hlen Hen Har. rewrite detect_language_advanced_counts. cbv zeta.
  apply Z.ltb_ge in Hlen. rewrite Hlen.
  rewrite (filter_ext _ _ is_english_char_spec), (filter_none _ _ Hen).
  rewrite (filter_ext _ _ is_arabic_char_spec).
  pose proof (filter_some _ _ Har) as Ha.
  change (len (@nil codepoint)) with 0%Z.
  destruct (Z.gtb_spec (len (filter in_arabic_block text)) (0 * 2));
    [reflexivity | lia].
Qed.

Lemma detect_language_advanced_arabic_witness :
  detect_language_advanced (repeat 0x645%N 9 ++ u"!") = lang_arabic.
Proof.
  apply (detect_language_advanced_arabic (repeat 0x645%N 9 ++ u"!")).
  - vm_compute. discriminate.
  - apply Forall_false_by. vm_compute. reflexivity.
  - apply Exists_true_by. vm_compute. reflexivity.
Defined.

(** X4: a text of 10 or more trimmed characters without any Arabic or
    English character, digits for instance, is classified mixed. *)
Theorem detect_language_advanced_no_letter (text : str) :
  (10 <= len (PyStr.strip text))%Z ->
  Forall (fun c => in_arabic_block c = false) text ->
  Forall (fun c => lowers_into_a_z c = false) text ->
  detect_language_advanced text = lang_mixed.
Proof.
  intros Hlen Har Hen. rewrite detect_language_advanced_counts. cbv zeta.
  apply Z.ltb_ge in Hlen. rewrite Hlen.
  rewrite (filter_ext _ _ is_english_char_spec), (filter_none _ _ Hen).
  rewrite (filter_ext _ _ is_arabic_char_spec), (filter_none _ _ Har).
  reflexivity.
Qed.

Lemma detect_language_advanced_no_letter_witness :
  detect_language_advanced u"1234567890" = lang_mixed.
Proof.
  apply (detect_language_advanced_no_letter u"1234567890").
  - vm_compute. discriminate.
  - apply Forall_false_by. vm_compute. reflexivity.
  - apply Forall_false_by. vm_compute. reflexivity.
Defined.

Lemma isspace_cases (c : codepoint) :
  PyStr.isspace c = true ->
  ((0x09 <= c <= 0x0D) \/ (0x1C <= c <= 0x20) \/ c = 0x85 \/ c = 0xA0
   \/ c = 0x1680 \/ (0x2000 <= c <= 0x200A) \/ c = 0x2028 \/ c = 0x2029
   \/ c = 0x202F \/ c = 0x205F \/ c = 0x3000)%N.
Proof.
  unfold PyStr.isspace.
  rewrite !orb_true_iff, !andb_true_iff, !N.leb_le, !N.eqb_eq. tauto.
Qed.

Lemma space_not_counted (c : codepoint) :
  PyStr.isspace c = true ->
  is_arabic_char c = false /\ is_english_char c = false.
Proof.
  intros H. apply isspace_cases in H.
  rewrite is_arabic_char_spec, is_english_char_spec.
  unfold in_arabic_block, lowers_into_a_z, is_ascii_letter.
  split; apply not_true_is_false; intros G;
    rewrite ?orb_true_iff, ?andb_true_iff, ?N.leb_le, ?N.eqb_eq in G; lia.
Qed.

Lemma filter_padding (p : codepoint -> bool) (ws1 ws2 text : str) :
  Forall (fun c => p c = false) ws1 -> Forall (fun c => p c = false) ws2 ->
  filter p (ws1 ++ text ++ ws2) = filter p text.
Proof.
  intros H1 H2.
  rewrite !filter_app, (filter_none _ _ H1), (filter_none _ _ H2).
  now rewrite app_nil_r.
Qed.

(** X5: whitespace before and after a text does not change its
    classification. *)
Theorem detect_language_advanced_padding (ws1 ws2 text : str) :
  all_space ws1 -> all_space ws2 ->
  detect_language_advanced (ws1 ++ text ++ ws2) = detect_language_advanced text.
Proof.
  intros H1 H2. rewrite !detect_language_advanced_counts.
  rewrite (strip_padding ws1 ws2 text H1 H2).
  rewrite !filter_padding; [reflexivity | | | |];
    eapply Forall_impl; try eassumption; intros c Hc; now apply space_not_counted.
Qed.

Lemma detect_language_advanced_padding_witness :
  detect_language_advanced (u"  " ++ u"hello wide world" ++ [10%N])
  = detect_language_advanced u"hello wide world".
Proof.
  apply (detect_language_advanced_padding u"  " [10%N] u"hello wide world");
    apply Forall_true_by; vm_compute; reflexivity.
Defined.

(** ** More on the handler of [/api/detect_ai] *)

Lemma get_set (d : dict) (k : str) (v : value) :
  Dict.get (Dict.set d k v) k = Some v.
Proof.
  induction d as [| [k' v'] d IH]; cbn [Dict.set Dict.get].
  - now rewrite (proj2 (str_eqb_eq k k) eq_refl).
  - destruct (PyStr.eqb k k') eqn:E; cbn [Dict.get]; rewrite E; [reflexivity | exact IH].
Qed.

Lemma get_set_other (d : dict) (k k' : str) (v : value) :
  k' <> k -> Dict.get (Dict.set d k v) k' = Dict.get d k'.
Proof.
  intros Hne. induction d as [| [k0 v0] d IH]; cbn [Dict.set Dict.get].
  - now rewrite (proj2 (str_eqb_neq k' k) Hne).
  - destruct (PyStr.eqb k k0) eqn:E; cbn [Dict.get].
    + apply str_eqb_eq in E. subst k0. now rewrite (proj2 (str_eqb_neq k' k) Hne).
    + now rewrite IH.
Qed.

Lemma detect_ai_with_text (payload : dict) (c : codepoint) (text : str) :
  Dict.get_default payload u"text" (VStr u"") = VStr (c :: text) ->
  detect_ai payload
  = Return (Dict.set (advanced_ai_detection (c :: text)) u"method"
              (VStr u"advanced_algorithm")).
Proof.
  intros H. unfold detect_ai. cbv zeta. rewrite H. reflexivity.
Qed.

Lemma detect_ai_with_other (payload : dict) (v : value) :
  Dict.get_default payload u"text" (VStr u"") = v ->
  truthy v = true -> (forall text, v <> VStr text) ->
  detect_ai payload = Raise (HTTPException 500 (Str (AttributeError v u"strip"))).
Proof.
  intros H Ht Hs. unfold detect_ai. cbv zeta. rewrite H, Ht.
  destruct v; try reflexivity. now destruct (Hs s).
Qed.

(** X11: the handler answers 200 exactly when the payload holds a
    non-empty string under [text]; in every other case it answers 500,
    never 400. *)
Theorem detect_ai_status (payload : dict) :
  (status_code_of (detect_ai payload) = 200%Z
   \/ status_code_of (detect_ai payload) = 500%Z)
  /\ (status_code_of (detect_ai payload) = 200%Z
      <-> exists c text,
            Dict.get_default payload u"text" (VStr u"") = VStr (c :: text)).
Proof.
  destruct (Dict.get_default payload u"text" (VStr u"")) as [| b | i | f | s | l | d] eqn:E;
    try (destruct s as [| c s]);
    try (rewrite (detect_ai_with_text payload c s E); split; [now left |];
         split; [intros _; now exists c, s | reflexivity]).
  all: match goal with E : _ = ?v |- _ => destruct (truthy v) eqn:T end.
  all: try (cbn in T; discriminate T).
  all: first [ rewrite (detect_ai_with_other payload _ E T) by (intros ?; discriminate)
             | rewrite (detect_ai_without_text payload) by (rewrite E; exact T) ];
    (split; [now right |]);
    (split; [discriminate | intros [c' [t' H]]; discriminate]).
Qed.

Lemma detect_ai_status_witness :
  status_code_of (detect_ai [ (u"text", VStr u"Hi") ]) = 200%Z.
Proof.
  apply (detect_ai_status [ (u"text", VStr u"Hi") ]).
  exists 72%N, [105%N]. reflexivity.
Defined.

(** X12: on a non-empty string the body is the result of the scorer with
    the key [method] added: [method] reads "advanced_algorithm" and every
    other key reads as in the scorer's result. *)
Theorem detect_ai_body (payload : dict) (text : str) :
  Dict.get_default payload u"text" (VStr u"") = VStr text ->
  text <> [] ->
  exists body : dict,
    detect_ai payload = Return body
    /\ Dict.get body u"method" = Some (VStr u"advanced_algorithm")
    /\ forall k : str,
         k <> u"method" ->
         Dict.get body k = Dict.get (advanced_ai_detection text) k.
Proof.
  intros H Hne. destruct text as [| c text]; [congruence |].
  eexists. split; [exact (detect_ai_with_text payload c text H) |].
  split; [apply get_set |]. intros k Hk. now apply get_set_other.
Qed.

Lemma detect_ai_body_witness :
  exists body : dict,
    detect_ai [ (u"text", VStr thirty_words) ] = Return body
    /\ Dict.get body u"method" = Some (VStr u"advanced_algorithm")
    /\ forall k : str,
         k <> u"method" ->
         Dict.get body k = Dict.get (advanced_ai_detection thirty_words) k.
Proof.
  apply (detect_ai_body [ (u"text", VStr thirty_words) ] thirty_words).
  - reflexivity.
  - vm_compute. discriminate.
Defined.

(** ** More on the handler of [/api/check_plagiarism] *)

Lemma nth_error_scores_inv (payload : dict) (references : list value)
    (i : nat) (entry : value) :
  Dict.get_default payload u"references" (VList []) = VList references ->
  nth_error (scores_of (check_plagiarism payload)) i = Some entry ->
  (i < List.length references)%nat /\ entry = similarity_entry (Z.of_nat i).
Proof.
  intros Hrefs Hnth.
  assert (Hlen : (i < List.length references)%nat).
  { pose proof (nth_error_Some (scores_of (check_plagiarism payload)) i) as B.
    rewrite (scores_of_list payload references Hrefs), !length_map, length_seq in B.
    apply B. rewrite <- (scores_of_list payload references Hrefs). congruence. }
  split; [exact Hlen |].
  rewrite (nth_error_scores payload references i Hrefs Hlen) in Hnth.
  now injection Hnth.
Qed.

(** X13: the outcome depends on the [references] value through its
    length alone: a list, a string or a dictionary of the same length,
    whatever they hold, get the same response. *)
Theorem check_plagiarism_length_only (payload1 payload2 : dict) :
  py_len (Dict.get_default payload1 u"references" (VList []))
  = py_len (Dict.get_default payload2 u"references" (VList [])) ->
  check_plagiarism payload1 = check_plagiarism payload2.
Proof.
  intros H. unfold check_plagiarism. cbv zeta. rewrite H. reflexivity.
Qed.

Lemma check_plagiarism_length_only_witness :
  check_plagiarism (payload_of u"x" (VList [VStr u"first"; VStr u"second"]))
  = check_plagiarism (payload_of u"y" (VStr u"ab")).
Proof.
  apply (check_plagiarism_length_only
           (payload_of u"x" (VList [VStr u"first"; VStr u"second"]))
           (payload_of u"y" (VStr u"ab"))).
  reflexivity.
Defined.

(** X14: the handler answers 200 when [references] is absent or a list,
    a string or a dictionary; for any other value (null, a boolean, a
    number) it answers 500, quoting the [TypeError] of [len]. *)
Theorem check_plagiarism_status (payload : dict) :
  let references := Dict.get_default payload u"references" (VList []) in
  (sized references = true /\ status_code_of (check_plagiarism payload) = 200%Z)
  \/ (sized references = false
      /\ check_plagiarism payload
         = Raise (HTTPException 500 (Str (TypeError references)))).
Proof.
  intros references. unfold check_plagiarism. cbv zeta. fold references.
  destruct references; cbn [py_len bind try_except sized status_code_of];
    first [ left; split; reflexivity | right; split; reflexivity ].
Qed.

(** X15: the results for a shorter list of references are the first
    entries of the results for a longer one. *)
Theorem check_plagiarism_prefix
    (payload1 payload2 : dict) (references1 references2 : list value) :
  Dict.get_default payload1 u"references" (VList []) = VList references1 ->
  Dict.get_default payload2 u"references" (VList []) = VList references2 ->
  (List.length references1 <= List.length references2)%nat ->
  scores_of (check_plagiarism payload1)
  = firstn (List.length references1) (scores_of (check_plagiarism payload2)).
Proof.
  intros H1 H2 Hle.
  rewrite (scores_of_list payload1 references1 H1),
          (scores_of_list payload2 references2 H2).
  replace (List.length references2)
    with (List.length references1
          + (List.length references2 - List.length references1))%nat by lia.
  rewrite seq_app, !map_app, firstn_app.
  rewrite !length_map, length_seq, Nat.sub_diag, firstn_O, app_nil_r.
  rewrite firstn_all2 by (rewrite !length_map, length_seq; lia).
  reflexivity.
Qed.

Lemma check_plagiarism_prefix_witness :
  scores_of (check_plagiarism (payload_of u"x" (references_of 3)))
  = firstn 3 (scores_of (check_plagiarism (payload_of u"x" (references_of 11)))).
Proof.
  apply (check_plagiarism_prefix
           (payload_of u"x" (references_of 3)) (payload_of u"x" (references_of 11))
           (repeat (VStr u"a") 3) (repeat (VStr u"a") 11)).
  - reflexivity.
  - reflexivity.
  - cbn. lia.
Defined.

Lemma similarity_entry_status (i : nat) :
  (i < 1000)%nat ->
  str_field (similarity_entry (Z.of_nat i)) u"status" = Some (status_at i).
Proof.
  intros H.
  assert (All : forallb
                  (fun i => match str_field (similarity_entry (Z.of_nat i)) u"status" with
                            | Some s => PyStr.eqb s (status_at i)
                            | None => false
                            end)
                  (seq 0 1000) = true) by (vm_compute; reflexivity).
  rewrite forallb_forall in All.
  assert (Hin : In i (seq 0 1000)) by (apply in_seq; lia).
  specialize (All i Hin).
  destruct (str_field (similarity_entry (Z.of_nat i)) u"status"); [| discriminate].
  apply str_eqb_eq in All. now subst.
Qed.

(** X16: the status of every entry is "low", "medium" or "high"; at the
    first thousand positions it is "low" for the positions 0 to 3,
    "medium" for 4 and 5, and "high" from 6 on. *)
Theorem check_plagiarism_status_by_position
    (payload : dict) (references : list value) (i : nat) (entry : value) :
  Dict.get_default payload u"references" (VList []) = VList references ->
  nth_error (scores_of (check_plagiarism payload)) i = Some entry ->
  (exists status : str,
      str_field entry u"status" = Some status
      /\ (status = u"low" \/ status = u"medium" \/ status = u"high"))
  /\ ((i < 1000)%nat -> str_field entry u"status" = Some (status_at i)).
Proof.
  intros Hrefs Hnth.
  destruct (nth_error_scores_inv payload references i entry Hrefs Hnth) as [_ ->].
  split; [| apply similarity_entry_status].
  unfold similarity_entry. cbv zeta.
  destruct (PyFloat.ltb f0_7 _); [| destruct (PyFloat.ltb f0_4 _)];
    eexists; (split; [unfold str_field; dict_get |]); tauto.
Qed.

Lemma check_plagiarism_status_by_position_witness :
  str_field (similarity_entry 6) u"status" = Some u"high"
  /\ float_field (similarity_entry 6) u"score" = Some f0_7.
Proof.
  split; [| reflexivity].
  apply (check_plagiarism_status_by_position
           (payload_of u"x" (references_of 11)) (repeat (VStr u"a") 11) 6).
  - reflexivity.
  - vm_compute. reflexivity.
  - lia.
Defined.

Lemma similarity_entry_above_range (i : nat) :
  (10 <= i < 1000)%nat ->
  entry_above_range (similarity_entry (Z.of_nat i)) = true
  /\ entry_in_range (similarity_entry (Z.of_nat i)) = false.
Proof.
  intros H.
  assert (All : forallb
                  (fun i => entry_above_range (similarity_entry (Z.of_nat i))
                            && negb (entry_in_range (similarity_entry (Z.of_nat i))))
                  (seq 10 990) = true) by (vm_compute; reflexivity).
  rewrite forallb_forall in All.
  assert (Hin : In i (seq 10 990)) by (apply in_seq; lia).
  specialize (All i Hin). apply andb_true_iff in All as [A B].
  split; [exact A | now apply negb_true_iff].
Qed.

(** X17: from position 10 up to position 999 every entry has a score
    above 1 and a percentage above 100. *)
Theorem check_plagiarism_above_range
    (payload : dict) (references : list value) (i : nat) (entry : value) :
  Dict.get_default payload u"references" (VList []) = VList references ->
  nth_error (scores_of (check_plagiarism payload)) i = Some entry ->
  (10 <= i < 1000)%nat ->
  entry_above_range entry = true /\ entry_in_range entry = false.
Proof.
  intros Hrefs Hnth Hi.
  destruct (nth_error_scores_inv payload references i entry Hrefs Hnth) as [_ ->].
  now apply similarity_entry_above_range.
Qed.

Lemma check_plagiarism_above_range_witness :
  entry_above_range (similarity_entry 10) = true
  /\ entry_in_range (similarity_entry 10) = false.
Proof.
  apply (check_plagiarism_above_range
           (payload_of u"x" (references_of 11)) (repeat (VStr u"a") 11) 10).
  - reflexivity.
  - vm_compute. reflexivity.
  - lia.
Defined.

(** ** Whitespace around a text *)

Lemma split_from_leading (ws s : str) :
  all_space ws -> PyStr.split_ws_from [] (ws ++ s) = PyStr.split_ws_from [] s.
Proof.
  induction 1 as [| c ws Hc _ IH]; [reflexivity |].
  cbn [app PyStr.split_ws_from]. now rewrite Hc.
Qed.

Lemma split_from_spaces (cur ws : str) :
  all_space ws -> PyStr.split_ws_from cur ws = PyStr.split_ws_from cur [].
Proof.
  intros H. revert cur. induction H as [| c ws Hc _ IH]; intros cur; [reflexivity |].
  cbn [PyStr.split_ws_from]. rewrite Hc.
  destruct cur; now rewrite IH.
Qed.

Lemma split_from_trailing (cur s ws : str) :
  all_space ws -> PyStr.split_ws_from cur (s ++ ws) = PyStr.split_ws_from cur s.
Proof.
  intros H. revert cur. induction s as [| c s IH]; intros cur.
  - now apply split_from_spaces.
  - cbn [app PyStr.split_ws_from]. destruct (PyStr.isspace c).
    + destruct cur; now rewrite IH.
    + apply IH.
Qed.

Lemma split_padding (ws1 ws2 s : str) :
  all_space ws1 -> all_space ws2 -> PyStr.split (ws1 ++ s ++ ws2) = PyStr.split s.
Proof.
  intros H1 H2. unfold PyStr.split.
  now rewrite (split_from_leading ws1 _ H1), (split_from_trailing [] s ws2 H2).
Qed.

Lemma space_not_terminator (c : codepoint) :
  PyStr.isspace c = true -> is_terminator c = false.
Proof.
  intros H. apply isspace_cases in H. unfold is_terminator.
  apply not_true_is_false. intros G.
  rewrite !orb_true_iff, !N.eqb_eq in G. lia.
Qed.

Lemma replace_spaces (old new : codepoint) (ws : str) :
  is_terminator old = true -> all_space ws -> PyStr.replace old new ws = ws.
Proof.
  intros Hold H. unfold PyStr.replace.
  induction H as [| c ws Hc _ IH]; [reflexivity |].
  cbn [map]. rewrite IH. destruct (N.eqb_spec c old) as [-> | _]; [| reflexivity].
  apply space_not_terminator in Hc. congruence.
Qed.

Lemma replace_padding (old new : codepoint) (ws1 ws2 s : str) :
  is_terminator old = true -> all_space ws1 -> all_space ws2 ->
  PyStr.replace old new (ws1 ++ s ++ ws2) = ws1 ++ PyStr.replace old new s ++ ws2.
Proof.
  intros Hold H1 H2.
  rewrite <- (replace_spaces old new ws1 Hold H1) at 2.
  rewrite <- (replace_spaces old new ws2 Hold H2) at 2.
  unfold PyStr.replace. now rewrite !map_app.
Qed.

(** The stripped, non-empty pieces; [sentences_of] applies it to the
    pieces of the text. *)
Lemma kept_cons (p : str) (ps : list str) :
  map PyStr.strip (filter (fun s => nonempty (PyStr.strip s)) (p :: ps))
  = (if nonempty (PyStr.strip p) then [PyStr.strip p] else [])
    ++ map PyStr.strip (filter (fun s => nonempty (PyStr.strip s)) ps).
Proof.
  cbn [filter]. now destruct (nonempty (PyStr.strip p)).
Qed.

Lemma split_on_from_leading (sep : codepoint) (cur ws s : str) :
  ~ In sep ws ->
  PyStr.split_on_from sep cur (ws ++ s) = PyStr.split_on_from sep (rev ws ++ cur) s.
Proof.
  revert cur. induction ws as [| c ws IH]; intros cur H; [reflexivity |].
  cbn [app PyStr.split_on_from].
  destruct (N.eqb_spec c sep) as [-> | _]; [exfalso; apply H; now left |].
  rewrite IH by (intros G; apply H; now right).
  cbn [rev]. now rewrite <- app_assoc.
Qed.

Lemma split_on_from_head (sep : codepoint) (cur s : str) :
  exists p ps,
    PyStr.split_on_from sep [] s = p :: ps
    /\ PyStr.split_on_from sep cur s = (rev cur ++ p) :: ps.
Proof.
  revert cur. induction s as [| c s IH]; intros cur.
  - exists [], []. cbn. now rewrite app_nil_r.
  - cbn [PyStr.split_on_from]. destruct (N.eqb_spec c sep) as [-> | _].
    + exists [], (PyStr.split_on_from sep [] s). cbn. now rewrite app_nil_r.
    + destruct (IH [c]) as [p [ps [E1 E2]]].
      destruct (IH (c :: cur)) as [p' [ps' [E1' E2']]].
      rewrite E1 in E1'. injection E1' as <- <-.
      exists ([c] ++ p), ps. split; [exact E2 |].
      rewrite E2'. cbn [rev]. now rewrite <- app_assoc.
Qed.

Lemma kept_trailing (sep : codepoint) (cur s ws : str) :
  all_space ws -> ~ In sep ws ->
  map PyStr.strip (filter (fun s => nonempty (PyStr.strip s))
                     (PyStr.split_on_from sep cur (s ++ ws)))
  = map PyStr.strip (filter (fun s => nonempty (PyStr.strip s))
                       (PyStr.split_on_from sep cur s)).
Proof.
  intros Hws Hsep. revert cur. induction s as [| c s IH]; intros cur.
  - cbn [app]. rewrite <- (app_nil_r ws) at 1.
    rewrite (split_on_from_leading sep cur ws [] Hsep).
    cbn [PyStr.split_on_from]. rewrite !kept_cons, rev_app_distr, rev_involutive.
    pose proof (strip_padding [] ws (rev cur) (Forall_nil _) Hws) as E.
    cbn [app] in E. now rewrite E.
  - cbn [app PyStr.split_on_from]. destruct (c =? sep)%N.
    + rewrite !kept_cons. now rewrite IH.
    + apply IH.
Qed.

Lemma sentences_of_padding (ws1 ws2 text : str) :
  all_space ws1 -> all_space ws2 ->
  sentences_of (ws1 ++ text ++ ws2) = sentences_of text.
Proof.
  intros H1 H2. unfold sentences_of.
  rewrite !replace_padding by (assumption || reflexivity).
  set (t := PyStr.replace _ _ (PyStr.replace _ _ (PyStr.replace _ _ text))).
  assert (N1 : ~ In 0x2E%N ws1).
  { intros G. apply (proj1 (Forall_forall _ _) H1) in G. discriminate. }
  assert (N2 : ~ In 0x2E%N ws2).
  { intros G. apply (proj1 (Forall_forall _ _) H2) in G. discriminate. }
  unfold PyStr.split_on.
  rewrite (split_on_from_leading _ [] ws1 _ N1), app_nil_r.
  rewrite (kept_trailing _ (rev ws1) t ws2 H2 N2).
  destruct (split_on_from_head 0x2E%N (rev ws1) t) as [p [ps [E1 E2]]].
  rewrite E1, E2, !kept_cons, rev_involutive.
  pose proof (strip_padding ws1 [] p H1 (Forall_nil _)) as E.
  rewrite app_nil_r in E. now rewrite E.
Qed.

(** X18: whitespace before and after a text does not change the result
    of the scorer. *)
Theorem advanced_ai_detection_padding (ws1 ws2 text : str) :
  all_space ws1 -> all_space ws2 ->
  advanced_ai_detection (ws1 ++ text ++ ws2) = advanced_ai_detection text.
Proof.
  intros H1 H2. unfold advanced_ai_detection. cbv zeta.
  rewrite !short_test by lia.
  rewrite (strip_padding ws1 ws2 text H1 H2).
  rewrite (split_padding ws1 ws2 text H1 H2).
  rewrite (sentences_of_padding ws1 ws2 text H1 H2).
  rewrite !detect_language_advanced_counts.
  rewrite (strip_padding ws1 ws2 text H1 H2).
  rewrite !(filter_padding _ ws1 ws2 text); [reflexivity | | | |];
    eapply Forall_impl; try eassumption; intros c Hc; now apply space_not_counted.
Qed.

Lemma advanced_ai_detection_padding_witness :
  advanced_ai_detection (u"  " ++ thirty_words ++ [10%N])
  = advanced_ai_detection thirty_words.
Proof.
  apply (advanced_ai_detection_padding u"  " [10%N] thirty_words);
    apply Forall_true_by; vm_compute; reflexivity.
Defined.

(** X20: a non-empty text of whitespace only is not taken for a missing
    text: the handler answers 200 with the too-short result and the
    language "unknown". *)
Theorem detect_ai_whitespace (payload : dict) (text : str) :
  Dict.get_default payload u"text" (VStr u"") = VStr text ->
  text <> [] -> all_space text ->
  exists body : dict,
    detect_ai payload = Return body
    /\ Dict.get body u"ai_probability" = Some (VFloat f0_5)
    /\ Dict.get body u"note" = Some (VStr note_too_short)
    /\ Dict.get body u"language" = Some (VStr lang_unknown)
    /\ Dict.get body u"method" = Some (VStr u"advanced_algorithm").
Proof.
  intros H Hne Hws. destruct text as [| c text]; [congruence |].
  eexists. split; [exact (detect_ai_with_text payload c text H) |].
  assert (Hlen : (len (PyStr.strip (c :: text)) < 20)%Z)
    by (rewrite (strip_all_space _ Hws); cbn; lia).
  rewrite (advanced_ai_detection_short _ Hlen).
  rewrite detect_language_advanced_counts, (strip_all_space _ Hws).
  change (len (@nil codepoint) <? 10)%Z with true. cbv iota.
  cbn [Dict.set]. repeat split; dict_get.
Qed.

Lemma detect_ai_whitespace_witness :
  status_code_of (detect_ai [ (u"text", VStr u"   ") ]) = 200%Z.
Proof.
  destruct (detect_ai_whitespace [ (u"text", VStr u"   ") ] u"   ")
    as [body [E _]].
  - reflexivity.
  - vm_compute. discriminate.
  - apply Forall_true_by. vm_compute. reflexivity.
  - rewrite E. reflexivity.
Defined.

(** ** The classes of characters *)

Lemma Forall2_rev {A B : Type} (R : A -> B -> Prop) (l1 : list A) (l2 : list B) :
  Forall2 R l1 l2 -> Forall2 R (rev l1) (rev l2).
Proof.
  induction 1 as [| x y l1 l2 Hxy _ IH]; [constructor |].
  cbn [rev]. apply Forall2_app; [exact IH | now constructor].
Qed.

Lemma lstrip_same_class (t1 t2 : str) :
  Forall2 same_class t1 t2 -> Forall2 same_class (PyStr.lstrip t1) (PyStr.lstrip t2).
Proof.
  induction 1 as [| a b t1 t2 Hab H IH]; [constructor |].
  cbn [PyStr.lstrip]. rewrite <- (proj1 Hab).
  destruct (PyStr.isspace a); [exact IH |].
  constructor; [exact Hab | exact H].
Qed.

Lemma strip_same_class (t1 t2 : str) :
  Forall2 same_class t1 t2 -> Forall2 same_class (PyStr.strip t1) (PyStr.strip t2).
Proof.
  intros H. unfold PyStr.strip, PyStr.rstrip.
  now apply Forall2_rev, lstrip_same_class, Forall2_rev, lstrip_same_class.
Qed.

Lemma filter_same_length (p : codepoint -> bool) (t1 t2 : str) :
  Forall2 (fun a b => p a = p b) t1 t2 ->
  len (filter p t1) = len (filter p t2).
Proof.
  unfold len. induction 1 as [| a b t1 t2 Hab _ IH]; [reflexivity |].
  cbn [filter]. rewrite <- Hab. destruct (p a); cbn [List.length]; lia.
Qed.

(** X19: the classification depends on a text only through the class of
    each of its characters: whitespace or not, in the Arabic block or
    not, counted as English or not.  Changing the case of ASCII letters,
    for instance, does not change it. *)
Theorem detect_language_advanced_by_class (text1 text2 : str) :
  Forall2 same_class text1 text2 ->
  detect_language_advanced text1 = detect_language_advanced text2.
Proof.
  intros H. rewrite !detect_language_advanced_counts.
  pose proof (Forall2_length (strip_same_class text1 text2 H)) as L.
  unfold len at 1 4. rewrite L. fold (len (PyStr.strip text2)).
  rewrite !(filter_ext _ _ is_arabic_char_spec), !(filter_ext _ _ is_english_char_spec).
  rewrite (filter_same_length in_arabic_block text1 text2),
          (filter_same_length lowers_into_a_z text1 text2); [reflexivity | |];
    eapply Forall2_impl; try exact H; intros a b [_ [Ha He]]; assumption.
Qed.

Lemma detect_language_advanced_by_class_witness :
  detect_language_advanced u"HELLO Wide World" = detect_language_advanced u"hello wide world".
Proof.
  apply (detect_language_advanced_by_class u"HELLO Wide World" u"hello wide world").
  apply same_class_by; vm_compute; reflexivity.
Defined.
